(** * WikiQuiz backend ([project/main.py]): embedding and verified properties

  The backend is a FastAPI application with three handlers
  ([generate_quiz], [list_quizzes], [get_quiz]) over one SQLAlchemy table
  ([quizzes]), a scraper ([scrape_wikipedia]) and a template quiz generator
  ([generate_quiz_with_gemini]).

  The handlers are embedded as computations in a state-and-exception monad.
  The state holds the rows of the table and the SQLAlchemy sessions that are
  open; everything the program reads from outside (the HTTP answer for a
  URL, the HTML parser, the database clock, a storage engine that may refuse
  a statement) is a field of an environment record that each call receives. *)

From Stdlib Require Import String Ascii ZArith List Bool Lia.
From Stdlib Require Import Permutation Sorted DecimalString.
Import ListNotations.

Local Open Scope string_scope.
Local Open Scope Z_scope.

Set Warnings "-register-all".

(* ================================================================== *)
(** * Python values *)
(* ================================================================== *)

Module Py.

(** [len(s)]: a [str] is the sequence of its characters.  The characters
    are those of [string]; nothing below depends on the alphabet. *)
Definition len (s : string) : Z := Z.of_nat (String.length s).

(** [s[:k]] for a constant [k >= 0]: the first [k] characters of [s], all
    of [s] when it is shorter. *)
Fixpoint slice_to (k : Z) (s : string) : string :=
  match s with
  | EmptyString => EmptyString
  | String c rest =>
      if k <=? 0 then EmptyString else String c (slice_to (k - 1) rest)
  end.

(** [sep.join(parts)] *)
Definition join (sep : string) (parts : list string) : string :=
  String.concat sep parts.

(** The one-character string of a line feed. *)
Definition LF : string := String (ascii_of_nat 10) EmptyString.

(** [str(n)] for an [int]. *)
Definition str_of_int (n : Z) : string :=
  NilZero.string_of_int (Z.to_int n).

(** The values the handlers build and the JSON column stores: strings,
    lists, and dicts with string keys (in insertion order).  On these
    values [json.dumps] followed by [json.loads] is the identity, so the
    JSON column holds the value itself. *)
Inductive value : Type :=
| Str (s : string)
| List (items : list value)
| Dict (entries : list (string * value)).

(** [d.get(key, default)] *)
Fixpoint dict_get (entries : list (string * value)) (key : string)
         (default : value) : value :=
  match entries with
  | [] => default
  | (k, v) :: rest =>
      if String.eqb k key then v else dict_get rest key default
  end.

(** [v.get(key, default)] on a value known to be a dict; the attribute
    exists on dicts only. *)
Definition get (v : value) (key : string) (default : value) : option value :=
  match v with
  | Dict entries => Some (dict_get entries key default)
  | _ => None
  end.

(** [type(v).__name__] *)
Definition type_name (v : value) : string :=
  match v with
  | Str _ => "str"
  | List _ => "list"
  | Dict _ => "dict"
  end.

(** [d[key]] where the key may be absent. *)
Fixpoint dict_lookup (entries : list (string * value)) (key : string)
  : option value :=
  match entries with
  | [] => None
  | (k, v) :: rest =>
      if String.eqb k key then Some v else dict_lookup rest key
  end.

End Py.

(* ================================================================== *)
(** * Exceptions *)
(* ================================================================== *)

(** Every class below derives from Python's [Exception], so the clause
  [except Exception as e] catches each of them. *)
Inductive exn : Type :=
| Exception (msg : string)               (* raise Exception(msg) *)
| AttributeError (msg : string)          (* attribute access on None *)
| HTTPError (msg : string)               (* requests: raise_for_status *)
| IntegrityError (msg : string)          (* sqlalchemy.exc.IntegrityError *)
| LibraryError (cls msg : string)        (* any other library exception *)
| ResponseValidationError (msg : string) (* fastapi: response_model *)
| HTTPException (status_code : Z) (detail : string).

(** [str(e)] *)
Definition str (e : exn) : string :=
  match e with
  | Exception msg => msg
  | AttributeError msg => msg
  | HTTPError msg => msg
  | IntegrityError msg => msg
  | LibraryError _ msg => msg
  | ResponseValidationError msg => msg
  | HTTPException code detail => Py.str_of_int code ++ ": " ++ detail
  end.

Inductive result (A : Type) : Type :=
| Ok (a : A)
| Raise (e : exn).
Arguments Ok {A} a.
Arguments Raise {A} e.

(* ================================================================== *)
(** * The environment of a call *)
(* ================================================================== *)

(** What [requests.get] returns. *)
Module Response.
Record t : Type := mk {
  status_code : Z;
  reason : string;
  url : string;
  text : string
}.

(** [response.raise_for_status()]: an [HTTPError] for a 4xx or 5xx
    status. *)
Definition raise_for_status (r : t) : result unit :=
  if (400 <=? status_code r) && (status_code r <? 500) then
    Raise (HTTPError (Py.str_of_int (status_code r) ++ " Client Error: "
                        ++ reason r ++ " for url: " ++ url r))
  else if (500 <=? status_code r) && (status_code r <? 600) then
    Raise (HTTPError (Py.str_of_int (status_code r) ++ " Server Error: "
                        ++ reason r ++ " for url: " ++ url r))
  else Ok tt.
End Response.

(** What the scraper reads off the parsed document. *)
Module Soup.
Record t : Type := mk {
  (** [soup.find("h1")]: the text of the first [h1], [None] without one *)
  find_h1 : option string;
  (** [p.get_text()] for each [p] of
      [soup.select("div.mw-parser-output > p")], in document order *)
  select_paragraphs : list string
}.
End Soup.

(** The statements the handlers send to the storage engine. *)
Inductive statement : Type :=
| INSERT_quiz       (* db.commit() flushing the added row *)
| SELECT_refresh    (* db.refresh(quiz_entry) *)
| SELECT_all        (* db.query(Quiz).order_by(...).all() *)
| SELECT_by_id (quiz_id : Z).
                    (* db.query(Quiz).filter(Quiz.id == quiz_id).first(),
                       with the id it binds *)

Module Env.
Record t : Type := mk {
  (** [requests.get(url, headers=headers)]: a response, or the exception
      of a transport failure *)
  requests_get : string -> result Response.t;
  (** [BeautifulSoup(text, "html.parser")] *)
  BeautifulSoup : string -> Soup.t;
  (** [func.now()] of the database server at this call *)
  now : Z;
  (** the exception with which the driver or the storage engine refuses a
      statement (an id the driver cannot bind, database locked, connection
      lost, ...), [None] when the statement is run *)
  db_fault : statement -> option exn;
  (** [str(e)] of the [IntegrityError] SQLAlchemy raises when the INSERT of
      this call violates the unique index on [url]: the driver's message
      with the statement and its parameters *)
  integrity_text : string
}.

(** The storage engine runs the statements of a create: the INSERT of the
    commit and the SELECT of the refresh. *)
Definition storage_ok (w : t) : Prop :=
  db_fault w INSERT_quiz = None /\ db_fault w SELECT_refresh = None.
End Env.

(* ================================================================== *)
(** * Database model and schemas *)
(* ================================================================== *)

(** [class Quiz(Base)], table [quizzes]. *)
Module Quiz.
(** A persisted row. *)
Record t : Type := mk {
  id : Z;                    (* Integer, primary_key *)
  url : string;              (* String, unique *)
  title : string;
  content_excerpt : string;
  quiz_data : Py.value;      (* JSON *)
  created_at : Z             (* DateTime, server_default=func.now() *)
}.

(** [Quiz(url=..., title=..., content_excerpt=..., quiz_data=...)]: the
    object before it is flushed; [id] and [created_at] are assigned by the
    database. *)
Record transient : Type := new {
  new_url : string;
  new_title : string;
  new_content_excerpt : string;
  new_quiz_data : Py.value
}.
End Quiz.

(** [class Question(BaseModel)] *)
Module Question.
Record t : Type := mk {
  question : string;
  options : list (string * string);   (* Dict[str, str] *)
  correct_answer : string;
  explanation : string;
  difficulty : string
}.
End Question.

(** [class QuizCreate(BaseModel)] *)
Module QuizCreate.
Record t : Type := mk { url : string }.
End QuizCreate.

(** [class QuizResponse(BaseModel)] *)
Module QuizResponse.
Record t : Type := mk {
  id : Z;
  url : string;
  title : string;
  quiz_data : list Question.t;
  related_topics : list string
}.
End QuizResponse.

(** The dict a handler returns for [response_model=QuizResponse], before
  FastAPI validates it. *)
Module Payload.
Record t : Type := mk {
  id : Z;
  url : string;
  title : string;
  quiz_data : Py.value;
  related_topics : Py.value
}.
End Payload.

(** One element of the list [list_quizzes] returns. *)
Module Summary.
Record t : Type := mk {
  id : Z;
  title : string;
  url : string;
  created_at : Z
}.

Definition of_quiz (q : Quiz.t) : t :=
  mk (Quiz.id q) (Quiz.title q) (Quiz.url q) (Quiz.created_at q).

(** The order of a listing that is newest first: [b], listed after [a],
    was not created after [a]. *)
Definition not_older (a b : t) : Prop := created_at b <= created_at a.
End Summary.

(* ================================================================== *)
(** * State and the handler monad *)
(* ================================================================== *)

(** A session is identified by the number it got when it was opened. *)
Definition Session : Type := nat.

Module State.
Record t : Type := mk {
  (** the rows of [quizzes], in insertion order *)
  quizzes : list Quiz.t;
  (** the sessions opened and not closed *)
  live_sessions : list Session;
  (** the number the next session gets *)
  next_session : Session
}.

(** [Base.metadata.create_all] on a new database: an empty table. *)
Definition initial : t := mk [] [] 0%nat.

Definition with_quizzes (s : t) (rows : list Quiz.t) : t :=
  mk rows (live_sessions s) (next_session s).
End State.

(** A computation reads and changes the state and either returns a value or
    raises; the state it leaves is kept in both cases. *)
Definition M (A : Type) : Type := State.t -> result A * State.t.

Definition ret {A} (a : A) : M A := fun s => (Ok a, s).

Definition raise {A} (e : exn) : M A := fun s => (Raise e, s).

Definition bind {A B} (m : M A) (k : A -> M B) : M B :=
  fun s =>
    match m s with
    | (Ok a, s') => k a s'
    | (Raise e, s') => (Raise e, s')
    end.

(** A computation that does not touch the state. *)
Definition lift {A} (r : result A) : M A := fun s => (r, s).

(** [try: body / except Exception as e: handler(e)] *)
Definition try_except {A} (body : M A) (handler : exn -> M A) : M A :=
  fun s =>
    match body s with
    | (Ok a, s') => (Ok a, s')
    | (Raise e, s') => handler e s'
    end.

(** [try: body / finally: cleanup]: the cleanup runs on both exits; an
    exception of the cleanup replaces the outcome of the body. *)
Definition try_finally {A} (body : M A) (cleanup : M unit) : M A :=
  fun s =>
    match body s with
    | (r, s') =>
        match cleanup s' with
        | (Ok _, s'') => (r, s'')
        | (Raise e, s'') => (Raise e, s'')
        end
    end.

Declare Scope handler_scope.
Delimit Scope handler_scope with handler.
Notation "x <- m ;; k" := (bind m (fun x => k))
  (at level 61, m at next level, right associativity) : handler_scope.
Notation "m ;;; k" := (bind m (fun _ => k))
  (at level 61, right associativity) : handler_scope.
Local Open Scope handler_scope.

(* ================================================================== *)
(** * Sessions and the storage engine *)
(* ================================================================== *)

(** [SessionLocal()]: a new session; no statement is sent yet. *)
Definition SessionLocal : M Session :=
  fun s =>
    let db := State.next_session s in
    (Ok db, State.mk (State.quizzes s) (db :: State.live_sessions s) (S db)).

(** [db.close()] *)
Definition db_close (db : Session) : M unit :=
  fun s =>
    (Ok tt, State.mk (State.quizzes s)
                     (filter (fun x => negb (Nat.eqb x db)) (State.live_sessions s))
                     (State.next_session s)).

(** The statement is refused when the engine has a fault for it. *)
Definition engine (w : Env.t) (st : statement) : M unit :=
  match Env.db_fault w st with
  | Some e => raise e
  | None => ret tt
  end.

(** The rowid SQLite gives an INTEGER PRIMARY KEY: 1 in an empty table,
    otherwise one more than the largest in the table (as long as the
    largest is below the largest 64-bit integer, which is the case in every
    table filled through the handlers). *)
Definition next_rowid (rows : list Quiz.t) : Z :=
  match map Quiz.id rows with
  | [] => 1
  | first :: others => 1 + fold_right Z.max first others
  end.

(** Is the [unique=True] column [url] already holding [u]? *)
Definition url_taken (u : string) (rows : list Quiz.t) : bool :=
  existsb (fun q => String.eqb (Quiz.url q) u) rows.

(** [db.add(quiz_entry)]: the object becomes pending in the session; with
    [autoflush=False] nothing is sent before the commit. *)
Definition db_add (db : Session) (quiz_entry : Quiz.transient) : Quiz.transient :=
  quiz_entry.

(** [db.commit()] with one pending object: the INSERT, which the unique
    index on [url] rejects for a url that is stored, with SQLAlchemy's
    [IntegrityError] (its text is the environment's); the database assigns
    [id] and [created_at].  Returns the primary key of the new row. *)
Definition db_commit (w : Env.t) (db : Session) (pending : Quiz.transient) : M Z :=
  engine w INSERT_quiz ;;;
  fun s =>
    let rows := State.quizzes s in
    if url_taken (Quiz.new_url pending) rows then
      (Raise (IntegrityError (Env.integrity_text w)), s)
    else
      let pk := next_rowid rows in
      let row := Quiz.mk pk (Quiz.new_url pending) (Quiz.new_title pending)
                         (Quiz.new_content_excerpt pending)
                         (Quiz.new_quiz_data pending) (Env.now w) in
      (Ok pk, State.with_quizzes s (rows ++ [row])).

(** [db.query(Quiz).filter(Quiz.id == quiz_id).first()]: the driver binds
    [quiz_id] and the engine runs the query, unless one of them refuses
    (the exception then leaves the call); the first row with that id, or
    [None]. *)
Definition query_first_by_id (w : Env.t) (db : Session) (quiz_id : Z)
  : M (option Quiz.t) :=
  engine w (SELECT_by_id quiz_id) ;;;
  fun s => (Ok (find (fun q => Quiz.id q =? quiz_id) (State.quizzes s)), s).

(** [db.refresh(quiz_entry)]: the row is read back by its primary key. *)
Definition db_refresh (w : Env.t) (db : Session) (pk : Z) : M Quiz.t :=
  engine w SELECT_refresh ;;;
  fun s =>
    match find (fun q => Quiz.id q =? pk) (State.quizzes s) with
    | Some row => (Ok row, s)
    | None =>
        (Raise (LibraryError "InvalidRequestError"
                             "Could not refresh instance"), s)
    end.

(** ORDER BY created_at DESC: a row goes before the first row that is not
    newer than it.  (SQL leaves the order of rows with equal timestamps to
    the engine; the properties below do not depend on it.) *)
Fixpoint insert_desc (q : Quiz.t) (sorted : list Quiz.t) : list Quiz.t :=
  match sorted with
  | [] => [q]
  | x :: rest =>
      if Quiz.created_at x <=? Quiz.created_at q then q :: x :: rest
      else x :: insert_desc q rest
  end.

Definition order_by_created_at_desc (rows : list Quiz.t) : list Quiz.t :=
  fold_right insert_desc [] rows.

(** [db.query(Quiz).order_by(Quiz.created_at.desc()).all()] *)
Definition query_all_newest_first (w : Env.t) (db : Session) : M (list Quiz.t) :=
  engine w SELECT_all ;;;
  fun s => (Ok (order_by_created_at_desc (State.quizzes s)), s).

(* ================================================================== *)
(** * The scraper and the quiz generator *)
(* ================================================================== *)

(** [def scrape_wikipedia(url)]: the title and the content (first 8000
    characters); every exception of the body is replaced by an [Exception]
    whose message starts with "Error scraping Wikipedia: ". *)
Definition scrape_wikipedia (w : Env.t) (url : string) : M (string * string) :=
  try_except
    (response <- lift (Env.requests_get w url) ;;
     lift (Response.raise_for_status response) ;;;
     let soup := Env.BeautifulSoup w (Response.text response) in
     title <- match Soup.find_h1 soup with
              | Some text => ret text
              | None => raise (AttributeError
                                 "'NoneType' object has no attribute 'text'")
              end ;;
     let paragraphs := Soup.select_paragraphs soup in
     let content := Py.join Py.LF paragraphs in
     ret (title, Py.slice_to 8000 content))
    (fun e => raise (Exception ("Error scraping Wikipedia: " ++ str e))).

(** [def generate_quiz_with_gemini(title, content)]: the fallback
    generator; returns [(quiz_data, related_topics)]. *)
Definition generate_quiz_with_gemini (title content : string)
  : Py.value * Py.value :=
  let quiz_data :=
    Py.List [
      Py.Dict [
        ("question", Py.Str ("What is " ++ title ++ " best known for?"));
        ("options", Py.Dict [("A", Py.Str "Science"); ("B", Py.Str "Music");
                             ("C", Py.Str "Politics"); ("D", Py.Str "Art")]);
        ("correct_answer", Py.Str "A");
        ("explanation",
          Py.Str (title ++ " is primarily known for contributions in science."));
        ("difficulty", Py.Str "easy")
      ];
      Py.Dict [
        ("question", Py.Str ("Which field did " ++ title ++ " contribute to?"));
        ("options", Py.Dict [("A", Py.Str "Mathematics"); ("B", Py.Str "Cooking");
                             ("C", Py.Str "Fashion"); ("D", Py.Str "Sports")]);
        ("correct_answer", Py.Str "A");
        ("explanation",
          Py.Str (title ++ " made major contributions in mathematics and computing."));
        ("difficulty", Py.Str "medium")
      ]
    ] in
  let related_topics :=
    Py.List [Py.Str "Computer science"; Py.Str "Cryptography";
             Py.Str "Artificial intelligence"] in
  (quiz_data, related_topics).

(* ================================================================== *)
(** * The handlers *)
(* ================================================================== *)

(** The body of the [try] of [generate_quiz]: scrape, generate, save. *)
Definition generate_quiz_body (w : Env.t) (data : QuizCreate.t) (db : Session)
  : M Payload.t :=
  (* Step 1: Scrape Wikipedia *)
  scraped <- scrape_wikipedia w (QuizCreate.url data) ;;
  let '(title, content) := scraped in
  (* Step 2: Generate Quiz *)
  let '(quiz_data, related_topics) := generate_quiz_with_gemini title content in
  (* Step 3: Save to DB *)
  let quiz_entry :=
    Quiz.new (QuizCreate.url data) title (Py.slice_to 400 content)
             (Py.Dict [("questions", quiz_data);
                       ("related_topics", related_topics)]) in
  pk <- db_commit w db (db_add db quiz_entry) ;;
  row <- db_refresh w db pk ;;
  ret (Payload.mk (Quiz.id row) (Quiz.url row) (Quiz.title row)
                  quiz_data related_topics).

(** [@app.post("/generate")  def generate_quiz(data: QuizCreate)] *)
Definition generate_quiz (w : Env.t) (data : QuizCreate.t) : M Payload.t :=
  db <- SessionLocal ;;
  try_finally
    (try_except
       (generate_quiz_body w data db)
       (fun e => raise (HTTPException 500 (str e))))
    (db_close db).

(** [@app.get("/quizzes")  def list_quizzes()] *)
Definition list_quizzes (w : Env.t) : M (list Summary.t) :=
  db <- SessionLocal ;;
  quizzes <- query_all_newest_first w db ;;
  db_close db ;;;
  ret (map Summary.of_quiz quizzes).

(** [value.get(key, default)] on a JSON value read from the table; only a
    dict has the method. *)
Definition json_get (v : Py.value) (key : string) (default : Py.value)
  : M Py.value :=
  match Py.get v key default with
  | Some x => ret x
  | None => raise (AttributeError
                     ("'" ++ Py.type_name v ++ "' object has no attribute 'get'"))
  end.

(** [@app.get("/quizzes/{quiz_id}")  def get_quiz(quiz_id: int)] *)
Definition get_quiz (w : Env.t) (quiz_id : Z) : M Payload.t :=
  db <- SessionLocal ;;
  found <- query_first_by_id w db quiz_id ;;
  db_close db ;;;
  match found with
  | None => raise (HTTPException 404 "Quiz not found")
  | Some quiz =>
      quiz_data <- json_get (Quiz.quiz_data quiz) "questions" (Py.List []) ;;
      related_topics <-
        json_get (Quiz.quiz_data quiz) "related_topics" (Py.List []) ;;
      ret (Payload.mk (Quiz.id quiz) (Quiz.url quiz) (Quiz.title quiz)
                      quiz_data related_topics)
  end.

(* ================================================================== *)
(** * Response validation ([response_model=QuizResponse]) *)
(* ================================================================== *)

Definition as_str (v : Py.value) : option string :=
  match v with
  | Py.Str s => Some s
  | _ => None
  end.

(** A list field: every item must validate. *)
Fixpoint validate_items {A} (item : Py.value -> option A)
         (items : list Py.value) : option (list A) :=
  match items with
  | [] => Some []
  | v :: rest =>
      match item v, validate_items item rest with
      | Some a, Some l => Some (a :: l)
      | _, _ => None
      end
  end.

(** [Dict[str, str]]: every value must be a string. *)
Fixpoint as_str_dict (entries : list (string * Py.value))
  : option (list (string * string)) :=
  match entries with
  | [] => Some []
  | (k, v) :: rest =>
      match as_str v, as_str_dict rest with
      | Some s, Some l => Some ((k, s) :: l)
      | _, _ => None
      end
  end.

(** A required string field of a dict. *)
Definition str_field (entries : list (string * Py.value)) (key : string)
  : option string :=
  match Py.dict_lookup entries key with
  | Some v => as_str v
  | None => None
  end.

(** Validation of one item against [Question]: the five fields are
    required and typed; no rule relates [correct_answer] to [options]. *)
Definition validate_Question (v : Py.value) : option Question.t :=
  match v with
  | Py.Dict entries =>
      match str_field entries "question",
            Py.dict_lookup entries "options",
            str_field entries "correct_answer",
            str_field entries "explanation",
            str_field entries "difficulty" with
      | Some q, Some (Py.Dict opts), Some c, Some e, Some d =>
          match as_str_dict opts with
          | Some o => Some (Question.mk q o c e d)
          | None => None
          end
      | _, _, _, _, _ => None
      end
  | _ => None
  end.

Definition validate_QuizResponse (p : Payload.t) : option QuizResponse.t :=
  match Payload.quiz_data p, Payload.related_topics p with
  | Py.List qs, Py.List ts =>
      match validate_items validate_Question qs, validate_items as_str ts with
      | Some questions, Some topics =>
          Some (QuizResponse.mk (Payload.id p) (Payload.url p) (Payload.title p)
                                questions topics)
      | _, _ => None
      end
  | _, _ => None
  end.

(** What FastAPI does with the value a handler returns. *)
Definition response_model (p : Payload.t) : M QuizResponse.t :=
  match validate_QuizResponse p with
  | Some r => ret r
  | None => raise (ResponseValidationError "response validation failed")
  end.

(* ================================================================== *)
(** * The three operations of the router *)
(* ================================================================== *)

Definition POST_generate (w : Env.t) (data : QuizCreate.t) : M QuizResponse.t :=
  p <- generate_quiz w data ;; response_model p.

Definition GET_quizzes (w : Env.t) : M (list Summary.t) :=
  list_quizzes w.

Definition GET_quiz (w : Env.t) (quiz_id : Z) : M QuizResponse.t :=
  p <- get_quiz w quiz_id ;; response_model p.

(** A request together with the environment in which it is served. *)
Inductive request : Type :=
| Generate (w : Env.t) (data : QuizCreate.t)
| ListAll (w : Env.t)
| GetOne (w : Env.t) (quiz_id : Z).

(** The state a request leaves. *)
Definition serve (r : request) (s : State.t) : State.t :=
  match r with
  | Generate w data => snd (POST_generate w data s)
  | ListAll w => snd (GET_quizzes w s)
  | GetOne w quiz_id => snd (GET_quiz w quiz_id s)
  end.

(** The state after a sequence of requests, served one after the other. *)
Definition serve_all (rs : list request) (s : State.t) : State.t :=
  fold_left (fun acc r => serve r acc) rs s.

(** The states the server reaches from a new database. *)
Definition reachable (s : State.t) : Prop :=
  exists rs, s = serve_all rs State.initial.

(* ================================================================== *)
(** * Sample environments and requests *)
(* ================================================================== *)

Module Sample.

(** The text of SQLAlchemy's [IntegrityError] in the sample environments:
    the first line of what it prints for the violated unique index (the
    lines with the statement, its parameters and a link are left out). *)
Definition integrity_text : string :=
  "(sqlite3.IntegrityError) UNIQUE constraint failed: quizzes.url".

(** Every URL answers 200 with a page titled "Alan Turing" that has two
    paragraphs; the database clock reads [clock]; no statement is refused
    (for the limit of the sqlite3 driver see [Scenario.sqlite]). *)
Definition online (clock : Z) : Env.t :=
  Env.mk (fun u => Ok (Response.mk 200 "OK" u "<html>"))
         (fun _ => Soup.mk (Some "Alan Turing") ["Alan"; "Turing"])
         clock
         (fun _ => None)
         integrity_text.

(** Every URL answers 404. *)
Definition not_found : Env.t :=
  Env.mk (fun u => Ok (Response.mk 404 "Not Found" u ""))
         (fun _ => Soup.mk None [])
         0
         (fun _ => None)
         integrity_text.

(** The page answers, and the storage engine refuses every statement. *)
Definition locked : Env.t :=
  Env.mk (fun u => Ok (Response.mk 200 "OK" u "<html>"))
         (fun _ => Soup.mk (Some "Alan Turing") ["Alan"; "Turing"])
         0
         (fun _ => Some (LibraryError "OperationalError" "database is locked"))
         integrity_text.

Definition turing : QuizCreate.t :=
  QuizCreate.mk "https://en.wikipedia.org/wiki/Alan_Turing".

Definition lovelace : QuizCreate.t :=
  QuizCreate.mk "https://en.wikipedia.org/wiki/Ada_Lovelace".

(** The state after one quiz was generated at time 100. *)
Definition one_quiz : State.t :=
  serve_all [Generate (online 100) turing] State.initial.

(** The response to that request. *)
Definition turing_response : QuizResponse.t :=
  QuizResponse.mk
    1 "https://en.wikipedia.org/wiki/Alan_Turing" "Alan Turing"
    [Question.mk "What is Alan Turing best known for?"
                 [("A", "Science"); ("B", "Music"); ("C", "Politics");
                  ("D", "Art")]
                 "A"
                 "Alan Turing is primarily known for contributions in science."
                 "easy";
     Question.mk "Which field did Alan Turing contribute to?"
                 [("A", "Mathematics"); ("B", "Cooking"); ("C", "Fashion");
                  ("D", "Sports")]
                 "A"
                 "Alan Turing made major contributions in mathematics and computing."
                 "medium"]
    ["Computer science"; "Cryptography"; "Artificial intelligence"].

End Sample.

(* ================================================================== *)
(** * Configuration *)
(* ================================================================== *)

Module Config.

(** [sub in s] for two [str]: [sub] occurs in [s] at some position. *)
Fixpoint contains (sub s : string) : bool :=
  match s with
  | EmptyString => String.prefix sub EmptyString
  | String c rest => String.prefix sub s || contains sub rest
  end.

(** [os.getenv(key, default)] over the variables of the process. *)
Fixpoint getenv (environ : list (string * string)) (key default : string)
  : string :=
  match environ with
  | [] => default
  | (k, v) :: rest => if String.eqb k key then v else getenv rest key default
  end.

(** [DB_URL = os.getenv("DATABASE_URL", "sqlite:///./quiz.db")] *)
Definition DB_URL (environ : list (string * string)) : string :=
  getenv environ "DATABASE_URL" "sqlite:///./quiz.db".

(** [connect_args={"check_same_thread": False} if "sqlite" in DB_URL else {}],
    the argument of [create_engine]. *)
Definition connect_args (db_url : string) : list (string * bool) :=
  if contains "sqlite" db_url then [("check_same_thread", false)] else [].

End Config.

(* ================================================================== *)
(** * More sample environments and states *)
(* ================================================================== *)

Module Scenario.

(** The network is down: [requests.get] raises. *)
Definition offline : Env.t :=
  Env.mk (fun _ => Raise (LibraryError "ConnectionError" "connection refused"))
         (fun _ => Soup.mk None [])
         0
         (fun _ => None)
         Sample.integrity_text.

(** The page answers 200 and has paragraphs but no [h1]. *)
Definition no_heading : Env.t :=
  Env.mk (fun u => Ok (Response.mk 200 "OK" u "<html>"))
         (fun _ => Soup.mk None ["text"])
         0
         (fun _ => None)
         Sample.integrity_text.

(** The page answers 200 with a heading and no paragraph under
    [div.mw-parser-output]. *)
Definition no_paragraphs : Env.t :=
  Env.mk (fun u => Ok (Response.mk 200 "OK" u "<html>"))
         (fun _ => Soup.mk (Some "Stub") [])
         50
         (fun _ => None)
         Sample.integrity_text.

(** The page answers; the engine runs the INSERT and then refuses the
    SELECT of [db.refresh]. *)
Definition refresh_fails : Env.t :=
  Env.mk (fun u => Ok (Response.mk 200 "OK" u "<html>"))
         (fun _ => Soup.mk (Some "Alan Turing") ["Alan"; "Turing"])
         100
         (fun st => match st with
                    | SELECT_refresh =>
                        Some (LibraryError "OperationalError"
                                           "server closed the connection")
                    | _ => None
                    end)
         Sample.integrity_text.

(** Is [k] a signed 64-bit integer? *)
Definition int64 (k : Z) : bool :=
  (- 2 ^ 63 <=? k) && (k <=? 2 ^ 63 - 1).

(** The sqlite3 driver of the default [DB_URL]: an id outside the signed
    64-bit range cannot be bound, the lookup raises [OverflowError] and is
    not executed; every other statement is run. *)
Definition sqlite3_faults (st : statement) : option exn :=
  match st with
  | SELECT_by_id k =>
      if int64 k then None
      else Some (LibraryError "OverflowError"
                              "Python int too large to convert to SQLite INTEGER")
  | _ => None
  end.

(** Every URL answers 200 with a page titled "Alan Turing"; the database
    is the SQLite file of the default configuration. *)
Definition sqlite (clock : Z) : Env.t :=
  Env.mk (fun u => Ok (Response.mk 200 "OK" u "<html>"))
         (fun _ => Soup.mk (Some "Alan Turing") ["Alan"; "Turing"])
         clock
         sqlite3_faults
         Sample.integrity_text.

(** A database that already holds a row whose JSON column is an empty
    object. *)
Definition legacy : State.t :=
  State.mk [Quiz.mk 5 "https://en.wikipedia.org/wiki/Old" "Old" ""
                    (Py.Dict []) 10]
           [] 0%nat.

(** A state in which session 0 was left open. *)
Definition leaked : State.t :=
  snd (GET_quizzes Sample.locked State.initial).

(** Two quizzes generated at times 100 and 200. *)
Definition two_quizzes : State.t :=
  serve_all [Generate (Sample.online 100) Sample.turing;
             Generate (Sample.online 200) Sample.lovelace] State.initial.

(** The response to the second of these requests (the sample page is the
    same for every URL). *)
Definition lovelace_response : QuizResponse.t :=
  QuizResponse.mk
    2 "https://en.wikipedia.org/wiki/Ada_Lovelace" "Alan Turing"
    (QuizResponse.quiz_data Sample.turing_response)
    (QuizResponse.related_topics Sample.turing_response).

End Scenario.

(** The environment in which a request is served, and the time its
    database clock shows. *)
Definition request_env (r : request) : Env.t :=
  match r with
  | Generate w _ => w
  | ListAll w => w
  | GetOne w _ => w
  end.

Definition request_time (r : request) : Z := Env.now (request_env r).

(* ================================================================== *)
(** * Strings *)
(* ================================================================== *)

Lemma slice_to_len (s : string) :
  forall k, 0 <= k -> Py.len (Py.slice_to k s) <= k.
Proof.
  unfold Py.len.
  induction s as [| c rest IH]; intros k Hk; simpl.
  - lia.
  - destruct (k <=? 0) eqn:E; simpl.
    + lia.
    + apply Z.leb_gt in E. specialize (IH (k - 1)). lia.
Qed.

Lemma slice_to_short (s : string) :
  forall k, Py.len s <= k -> Py.slice_to k s = s.
Proof.
  unfold Py.len.
  induction s as [| c rest IH]; intros k Hk; simpl in *.
  - reflexivity.
  - destruct (k <=? 0) eqn:E.
    + apply Z.leb_le in E. lia.
    + f_equal. apply IH. lia.
Qed.

(* ================================================================== *)
(** * The table *)
(* ================================================================== *)

Lemma fold_max_ge_init (first : Z) (others : list Z) :
  first <= fold_right Z.max first others.
Proof. induction others as [| k rest IH]; cbn [fold_right]; lia. Qed.

Lemma fold_max_ge_in (first : Z) (others : list Z) (k : Z) :
  In k others -> k <= fold_right Z.max first others.
Proof.
  induction others as [| x rest IH]; cbn [fold_right In]; intros Hin.
  - contradiction.
  - destruct Hin as [-> | Hin]; [lia | specialize (IH Hin); lia].
Qed.

Lemma id_lt_next_rowid (rows : list Quiz.t) (q : Quiz.t) :
  In q rows -> Quiz.id q < next_rowid rows.
Proof.
  unfold next_rowid.
  destruct rows as [| x rest]; cbn [map In]; intros Hin.
  - contradiction.
  - destruct Hin as [-> | Hin].
    + pose proof (fold_max_ge_init (Quiz.id q) (map Quiz.id rest)). lia.
    + pose proof (fold_max_ge_in (Quiz.id x) (map Quiz.id rest) (Quiz.id q)
                                 (in_map Quiz.id rest q Hin)). lia.
Qed.

Lemma find_id_none (rows : list Quiz.t) (k : Z) :
  (forall q, In q rows -> Quiz.id q <> k) ->
  find (fun q => Quiz.id q =? k) rows = None.
Proof.
  induction rows as [| x rest IH]; simpl; intros H.
  - reflexivity.
  - destruct (Quiz.id x =? k) eqn:E.
    + apply Z.eqb_eq in E. exfalso. apply (H x); auto.
    + apply IH. intros q Hq. apply H. auto.
Qed.

Lemma find_app_none {A} (f : A -> bool) (l1 l2 : list A) :
  find f l1 = None -> find f (l1 ++ l2) = find f l2.
Proof.
  induction l1 as [| x rest IH]; simpl; intros H.
  - reflexivity.
  - destruct (f x); [discriminate | auto].
Qed.

(** The row inserted with the next rowid is the one a lookup of that id
    finds, whatever is inserted after it. *)
Lemma find_inserted (rows extra : list Quiz.t) (row : Quiz.t) :
  Quiz.id row = next_rowid rows ->
  find (fun q => Quiz.id q =? Quiz.id row) (rows ++ row :: extra) = Some row.
Proof.
  intros Hid.
  rewrite find_app_none.
  - simpl. rewrite Z.eqb_refl. reflexivity.
  - apply find_id_none. intros q Hq.
    pose proof (id_lt_next_rowid rows q Hq). lia.
Qed.

Lemma find_id_some (rows : list Quiz.t) (k : Z) :
  In k (map Quiz.id rows) ->
  exists q, find (fun q => Quiz.id q =? k) rows = Some q.
Proof.
  induction rows as [| x rest IH]; simpl; intros H.
  - contradiction.
  - destruct (Quiz.id x =? k) eqn:E.
    + eauto.
    + destruct H as [H | H]; [apply Z.eqb_neq in E; contradiction | auto].
Qed.

Lemma url_taken_true (u : string) (rows : list Quiz.t) :
  url_taken u rows = true <-> In u (map Quiz.url rows).
Proof.
  unfold url_taken. rewrite existsb_exists, in_map_iff.
  split; intros [q [H1 H2]].
  - exists q. apply String.eqb_eq in H2. auto.
  - exists q. split; [assumption |]. apply String.eqb_eq. assumption.
Qed.

Lemma url_taken_false (u : string) (rows : list Quiz.t) :
  url_taken u rows = false <-> ~ In u (map Quiz.url rows).
Proof.
  rewrite <- url_taken_true.
  destruct (url_taken u rows); split; intros H; congruence.
Qed.

(* ================================================================== *)
(** * Running the handlers *)
(* ================================================================== *)

Arguments next_rowid : simpl never.
Arguments generate_quiz_with_gemini : simpl never.
Arguments Py.slice_to : simpl never.
Arguments String.append : simpl never.

(** Unfolds the monad operations down to the case analyses of the code. *)
Ltac run_monad :=
  unfold engine in *;
  unfold bind, ret, raise, lift, try_except, try_finally in *;
  cbn beta iota in *.

(** Case analysis on the three places where the scraper can fail: the
    request, the status, the heading. *)
Ltac scrape_cases w u :=
  unfold scrape_wikipedia; run_monad;
  destruct (Env.requests_get w u) as [response | cause]; cbn;
  [ destruct (Response.raise_for_status response) as [[] | cause]; cbn;
    [ destruct (Soup.find_h1 (Env.BeautifulSoup w (Response.text response)))
        as [heading |]; cbn
    | ]
  | ].

(** The scraper leaves the state alone, and its answer does not depend on
    the state. *)
Lemma scrape_wikipedia_pure (w : Env.t) (u : string) (s s0 : State.t) :
  scrape_wikipedia w u s = (fst (scrape_wikipedia w u s0), s).
Proof.
  scrape_cases w u; reflexivity.
Qed.

(** A page that answers with a good status and has a heading is scraped. *)
Lemma scrape_wikipedia_ok (w : Env.t) (u : string) (s : State.t)
      (r : Response.t) (t : string) :
  Env.requests_get w u = Ok r ->
  Response.raise_for_status r = Ok tt ->
  Soup.find_h1 (Env.BeautifulSoup w (Response.text r)) = Some t ->
  scrape_wikipedia w u s =
    (Ok (t, Py.slice_to 8000
              (Py.join Py.LF
                 (Soup.select_paragraphs
                    (Env.BeautifulSoup w (Response.text r))))), s).
Proof.
  intros Hget Hstatus Hh1.
  unfold scrape_wikipedia. run_monad.
  rewrite Hget, Hstatus, Hh1. reflexivity.
Qed.

(** What the scraper returns, it returns cut to 8000 characters. *)
Lemma scrape_wikipedia_returns (w : Env.t) (u : string) (s s' : State.t)
      (t c : string) :
  scrape_wikipedia w u s = (Ok (t, c), s') ->
  s' = s /\ exists body, c = Py.slice_to 8000 body.
Proof.
  scrape_cases w u; intros H; inversion H; subst; eauto.
Qed.

(** What the scraper raises is its own [Exception] around the cause. *)
Lemma scrape_wikipedia_raises (w : Env.t) (u : string) (s s' : State.t)
      (e : exn) :
  scrape_wikipedia w u s = (Raise e, s') ->
  s' = s /\
  exists cause, e = Exception ("Error scraping Wikipedia: " ++ str cause).
Proof.
  scrape_cases w u; intros H; inversion H; subst; split; try reflexivity.
  - exists (AttributeError "'NoneType' object has no attribute 'text'").
    reflexivity.
  - exists cause. reflexivity.
  - exists cause. reflexivity.
Qed.

(** [generate_quiz] is its body between the opening of the session, the
    translation of an exception and the closing of the session. *)
Lemma generate_quiz_unfold (w : Env.t) (data : QuizCreate.t) (s : State.t) :
  generate_quiz w data s =
    let db := State.next_session s in
    match generate_quiz_body w data db (snd (SessionLocal s)) with
    | (Ok p, s1) => (Ok p, snd (db_close db s1))
    | (Raise e, s1) =>
        (Raise (HTTPException 500 (str e)), snd (db_close db s1))
    end.
Proof.
  unfold generate_quiz. run_monad. cbn.
  destruct (generate_quiz_body _ _ _ _) as [[p | e] s1]; reflexivity.
Qed.

(** The row [generate_quiz_body] saves and the payload it returns, when
    the page is scraped, the url is new and the engine runs both
    statements. *)
Lemma generate_quiz_body_ok (w : Env.t) (data : QuizCreate.t) (db : Session)
      (s : State.t) (t c : string) :
  scrape_wikipedia w (QuizCreate.url data) s = (Ok (t, c), s) ->
  Env.db_fault w INSERT_quiz = None ->
  Env.db_fault w SELECT_refresh = None ->
  url_taken (QuizCreate.url data) (State.quizzes s) = false ->
  generate_quiz_body w data db s =
    (Ok (Payload.mk (next_rowid (State.quizzes s)) (QuizCreate.url data) t
                    (fst (generate_quiz_with_gemini t c))
                    (snd (generate_quiz_with_gemini t c))),
     State.with_quizzes s
       (State.quizzes s ++
          [Quiz.mk (next_rowid (State.quizzes s)) (QuizCreate.url data) t
                   (Py.slice_to 400 c)
                   (Py.Dict
                      [("questions", fst (generate_quiz_with_gemini t c));
                       ("related_topics",
                         snd (generate_quiz_with_gemini t c))])
                   (Env.now w)])).
Proof.
  intros Hscrape Hins Hsel Hnew.
  unfold generate_quiz_body, db_commit, db_refresh, db_add. run_monad.
  rewrite Hscrape, Hins.
  rewrite (surjective_pairing (generate_quiz_with_gemini t c)).
  cbn. rewrite Hnew, Hsel. cbn.
  set (row := Quiz.mk _ _ _ _ _ _).
  assert (Hfind : find (fun q => Quiz.id q =? next_rowid (State.quizzes s))
                       (State.quizzes s ++ [row]) = Some row)
    by (apply (find_inserted (State.quizzes s) [] row); reflexivity).
  rewrite Hfind. reflexivity.
Qed.

Local Open Scope list_scope.

(** What the body of [generate_quiz] does to the state, whatever its
    outcome: the sessions are untouched, and the table is unchanged or has
    one more row, with the next rowid, the requested url (which was not
    stored) and an excerpt of at most 400 characters. *)
Lemma generate_quiz_body_state (w : Env.t) (data : QuizCreate.t) (db : Session)
      (s s1 : State.t) (r : result Payload.t) :
  generate_quiz_body w data db s = (r, s1) ->
  State.live_sessions s1 = State.live_sessions s /\
  State.next_session s1 = State.next_session s /\
  (State.quizzes s1 = State.quizzes s \/
   exists row,
     State.quizzes s1 = State.quizzes s ++ [row] /\
     Quiz.id row = next_rowid (State.quizzes s) /\
     Quiz.url row = QuizCreate.url data /\
     url_taken (QuizCreate.url data) (State.quizzes s) = false /\
     Py.len (Quiz.content_excerpt row) <= 400).
Proof.
  unfold generate_quiz_body, db_commit, db_refresh, db_add. run_monad.
  destruct (scrape_wikipedia w (QuizCreate.url data) s)
    as [[[t c] | e] s0] eqn:Hscrape.
  - apply scrape_wikipedia_returns in Hscrape as [-> _].
    rewrite (surjective_pairing (generate_quiz_with_gemini t c)).
    destruct (Env.db_fault w INSERT_quiz) as [e |]; cbn.
    { intros H; inversion H; subst; auto. }
    destruct (url_taken (QuizCreate.url data) (State.quizzes s)) eqn:Hnew; cbn.
    { intros H; inversion H; subst; auto. }
    set (row := Quiz.mk _ _ _ _ _ _).
    assert (Hrow : State.quizzes (State.with_quizzes s (State.quizzes s ++ [row]))
                   = State.quizzes s ++ [row]) by reflexivity.
    assert (Hlen : Py.len (Quiz.content_excerpt row) <= 400)
      by (apply slice_to_len; lia).
    destruct (Env.db_fault w SELECT_refresh) as [e |]; cbn.
    { intros H; inversion H; subst; cbn. repeat split; eauto 10. }
    destruct (find _ _); intros H; inversion H; subst; cbn;
      repeat split; eauto 10.
  - apply scrape_wikipedia_raises in Hscrape as [-> _].
    intros H; inversion H; subst; auto.
Qed.

(** A url that is stored makes the body raise and leave the table as it
    is; the exception is the violation of the unique index as soon as the
    page is scraped and the engine runs the INSERT. *)
Lemma generate_quiz_body_taken (w : Env.t) (data : QuizCreate.t) (db : Session)
      (s : State.t) :
  url_taken (QuizCreate.url data) (State.quizzes s) = true ->
  exists e,
    generate_quiz_body w data db s = (Raise e, s) /\
    (forall t c,
        scrape_wikipedia w (QuizCreate.url data) s = (Ok (t, c), s) ->
        Env.db_fault w INSERT_quiz = None ->
        e = IntegrityError (Env.integrity_text w)).
Proof.
  intros Htaken.
  unfold generate_quiz_body, db_commit, db_refresh, db_add. run_monad.
  destruct (scrape_wikipedia w (QuizCreate.url data) s)
    as [[[t c] | e] s0] eqn:Hscrape.
  - apply scrape_wikipedia_returns in Hscrape as [-> _].
    rewrite (surjective_pairing (generate_quiz_with_gemini t c)).
    destruct (Env.db_fault w INSERT_quiz) as [e |] eqn:Hins; cbn.
    + exists e. split; [reflexivity | intros; discriminate].
    + rewrite Htaken. eexists. split; [reflexivity | reflexivity].
  - apply scrape_wikipedia_raises in Hscrape as [-> _].
    exists e. split; [reflexivity | intros; discriminate].
Qed.

(** Opening and closing a session around a computation that leaves the
    sessions alone: the session is not live afterwards. *)
Lemma db_close_not_live (db : Session) (s : State.t) :
  ~ In db (State.live_sessions (snd (db_close db s))).
Proof.
  cbn. rewrite filter_In. intros [_ H].
  rewrite Nat.eqb_refl in H. discriminate.
Qed.

Lemma db_close_quizzes (db : Session) (s : State.t) :
  State.quizzes (snd (db_close db s)) = State.quizzes s.
Proof. reflexivity. Qed.

(** [generate_quiz] changes the table as its body does. *)
Lemma generate_quiz_quizzes (w : Env.t) (data : QuizCreate.t) (s : State.t) :
  State.quizzes (snd (generate_quiz w data s)) =
  State.quizzes
    (snd (generate_quiz_body w data (State.next_session s)
                             (snd (SessionLocal s)))).
Proof.
  rewrite generate_quiz_unfold. cbv zeta.
  destruct (generate_quiz_body _ _ _ _) as [[p | e] s1]; reflexivity.
Qed.

(** Validation neither reads nor changes the state. *)
Lemma response_model_state (p : Payload.t) (s : State.t) :
  snd (response_model p s) = s.
Proof.
  unfold response_model. destruct (validate_QuizResponse p); reflexivity.
Qed.

Lemma bind_response_model_state (m : M Payload.t) (s : State.t) :
  snd (bind m response_model s) = snd (m s).
Proof.
  unfold bind. destruct (m s) as [[p | e] s1]; cbn.
  - apply response_model_state.
  - reflexivity.
Qed.

(** The two reading handlers never change the table. *)
Lemma list_quizzes_quizzes (w : Env.t) (s : State.t) :
  State.quizzes (snd (list_quizzes w s)) = State.quizzes s.
Proof.
  unfold list_quizzes, query_all_newest_first, SessionLocal, db_close.
  run_monad. destruct (Env.db_fault w SELECT_all); reflexivity.
Qed.

Lemma get_quiz_quizzes (w : Env.t) (quiz_id : Z) (s : State.t) :
  State.quizzes (snd (get_quiz w quiz_id s)) = State.quizzes s.
Proof.
  unfold get_quiz, query_first_by_id, SessionLocal, db_close, json_get.
  run_monad. destruct (Env.db_fault w (SELECT_by_id quiz_id)); cbn; [reflexivity |].
  destruct (find _ _) as [quiz |]; cbn; [| reflexivity].
  destruct (Py.get (Quiz.quiz_data quiz) "questions" _); cbn; [| reflexivity].
  destruct (Py.get (Quiz.quiz_data quiz) "related_topics" _); reflexivity.
Qed.

(** One request leaves the table as it is or appends one row. *)
Lemma serve_quizzes (r : request) (s : State.t) :
  State.quizzes (serve r s) = State.quizzes s \/
  exists row,
    State.quizzes (serve r s) = State.quizzes s ++ [row] /\
    Quiz.id row = next_rowid (State.quizzes s) /\
    url_taken (Quiz.url row) (State.quizzes s) = false /\
    Py.len (Quiz.content_excerpt row) <= 400.
Proof.
  destruct r as [w data | w | w quiz_id]; cbn [serve].
  - unfold POST_generate. rewrite bind_response_model_state.
    rewrite generate_quiz_quizzes.
    destruct (generate_quiz_body w data (State.next_session s)
                                 (snd (SessionLocal s))) as [r s1] eqn:Hbody.
    apply generate_quiz_body_state in Hbody as (_ & _ & [H | H]).
    + left. exact H.
    + right. destruct H as (row & H1 & H2 & H3 & H4 & H5).
      exists row. cbn in *. rewrite H3. auto.
  - left. apply list_quizzes_quizzes.
  - left. unfold GET_quiz. rewrite bind_response_model_state.
    apply get_quiz_quizzes.
Qed.

(** Rows are only ever appended. *)
Lemma serve_all_quizzes (rs : list request) (s : State.t) :
  exists extra,
    State.quizzes (serve_all rs s) = State.quizzes s ++ extra.
Proof.
  revert s. induction rs as [| r rest IH]; intros s; cbn.
  - exists []. rewrite app_nil_r. reflexivity.
  - destruct (IH (serve r s)) as [extra Hextra].
    fold (serve_all rest (serve r s)). rewrite Hextra.
    destruct (serve_quizzes r s) as [H | (row & H & _)]; rewrite H.
    + exists extra. reflexivity.
    + exists (row :: extra). rewrite <- app_assoc. reflexivity.
Qed.

Lemma serve_all_snoc (rs : list request) (r : request) (s : State.t) :
  serve_all (rs ++ [r]) s = serve r (serve_all rs s).
Proof. unfold serve_all. rewrite fold_left_app. reflexivity. Qed.

(** An invariant of the table that holds at the start and that every
    append of a fresh row keeps holds in every reachable state. *)
Lemma reachable_ind (P : list Quiz.t -> Prop) :
  P [] ->
  (forall rows row,
      P rows ->
      Quiz.id row = next_rowid rows ->
      url_taken (Quiz.url row) rows = false ->
      Py.len (Quiz.content_excerpt row) <= 400 ->
      P (rows ++ [row])) ->
  forall s, reachable s -> P (State.quizzes s).
Proof.
  intros Hinit Hstep s [rs ->].
  induction rs as [| r rest IH] using rev_ind.
  - exact Hinit.
  - rewrite serve_all_snoc.
    destruct (serve_quizzes r (serve_all rest State.initial))
      as [H | (row & H & Hid & Hurl & Hlen)]; rewrite H.
    + exact IH.
    + apply Hstep; assumption.
Qed.

(* ================================================================== *)
(** * ORDER BY created_at DESC *)
(* ================================================================== *)

Lemma insert_desc_perm (q : Quiz.t) (l : list Quiz.t) :
  Permutation (insert_desc q l) (q :: l).
Proof.
  induction l as [| x rest IH]; cbn.
  - apply Permutation_refl.
  - destruct (Quiz.created_at x <=? Quiz.created_at q).
    + apply Permutation_refl.
    + apply perm_trans with (x :: q :: rest).
      * apply perm_skip. exact IH.
      * apply perm_swap.
Qed.

Lemma order_by_perm (rows : list Quiz.t) :
  Permutation (order_by_created_at_desc rows) rows.
Proof.
  induction rows as [| q rest IH]; cbn.
  - apply perm_nil.
  - apply perm_trans with (q :: order_by_created_at_desc rest).
    + apply insert_desc_perm.
    + apply perm_skip. exact IH.
Qed.

Lemma insert_desc_sorted (q : Quiz.t) (l : list Quiz.t) :
  StronglySorted (fun a b => Quiz.created_at b <= Quiz.created_at a) l ->
  StronglySorted (fun a b => Quiz.created_at b <= Quiz.created_at a)
                 (insert_desc q l).
Proof.
  induction l as [| x rest IH]; cbn; intros Hsorted.
  - constructor; constructor.
  - inversion Hsorted as [| ? ? Hrest Hx]; subst.
    destruct (Quiz.created_at x <=? Quiz.created_at q) eqn:E.
    + apply Z.leb_le in E. constructor; [assumption |].
      constructor; [assumption |].
      apply Forall_impl with (2 := Hx). intros; lia.
    + apply Z.leb_gt in E. constructor; [auto |].
      apply Permutation_Forall with (q :: rest).
      * apply Permutation_sym, insert_desc_perm.
      * constructor; [lia | assumption].
Qed.

Lemma order_by_sorted (rows : list Quiz.t) :
  StronglySorted (fun a b => Quiz.created_at b <= Quiz.created_at a)
                 (order_by_created_at_desc rows).
Proof.
  induction rows as [| q rest IH]; cbn.
  - constructor.
  - apply insert_desc_sorted. exact IH.
Qed.

Lemma map_summary_sorted (l : list Quiz.t) :
  StronglySorted (fun a b => Quiz.created_at b <= Quiz.created_at a) l ->
  StronglySorted Summary.not_older (map Summary.of_quiz l).
Proof.
  induction 1 as [| x rest Hrest IH Hx]; cbn; constructor.
  - exact IH.
  - apply Forall_map. exact Hx.
Qed.

(** [list_quizzes] when the engine runs the query. *)
Lemma list_quizzes_ok (w : Env.t) (s : State.t) :
  Env.db_fault w SELECT_all = None ->
  list_quizzes w s =
    (Ok (map Summary.of_quiz (order_by_created_at_desc (State.quizzes s))),
     snd (db_close (State.next_session s) (snd (SessionLocal s)))).
Proof.
  intros H. unfold list_quizzes, query_all_newest_first. run_monad.
  rewrite H. reflexivity.
Qed.

(* ================================================================== *)
(** * The quiz generator *)
(* ================================================================== *)

(** C9. The quiz generator does not look at the content: for every title
    and every two contents, the two runs return the same question records
    and the same related topics. *)
Theorem generate_quiz_with_gemini_ignores_content :
  forall (title content1 content2 : string),
    generate_quiz_with_gemini title content1 =
    generate_quiz_with_gemini title content2.
Proof. intros title content1 content2. reflexivity. Qed.

(** C10. For every title and content, every question record the generator
    produces is a valid [Question] whose [correct_answer] is one of the keys
    of its [options], although the validation of [Question] does not ask
    for it. *)
Theorem generated_correct_answer_is_an_option :
  forall (title content : string),
  exists records,
    fst (generate_quiz_with_gemini title content) = Py.List records /\
    Forall (fun record =>
              exists q,
                validate_Question record = Some q /\
                In (Question.correct_answer q) (map fst (Question.options q)))
           records.
Proof.
  intros title content. eexists. split.
  - reflexivity.
  - repeat constructor; eexists; (split; [reflexivity | cbn; auto]).
Qed.

(** The validation itself accepts a record whose [correct_answer] is not a
    key of [options]: the property above comes from the template alone. *)
Lemma validate_Question_no_cross_check :
  exists q,
    validate_Question
      (Py.Dict [("question", Py.Str "?");
                ("options", Py.Dict [("A", Py.Str "yes")]);
                ("correct_answer", Py.Str "Z");
                ("explanation", Py.Str "");
                ("difficulty", Py.Str "easy")]) = Some q /\
    ~ In (Question.correct_answer q) (map fst (Question.options q)).
Proof.
  eexists. split; [reflexivity |].
  cbn. intros [H | []]. discriminate.
Qed.

(** What the generator returns passes [response_model] with two questions
    and three related topics. *)
Lemma generated_validates (i : Z) (u t' title content : string) :
  exists q1 q2 t1 t2 t3,
    validate_QuizResponse
      (Payload.mk i u t' (fst (generate_quiz_with_gemini title content))
                  (snd (generate_quiz_with_gemini title content))) =
    Some (QuizResponse.mk i u t' [q1; q2] [t1; t2; t3]).
Proof. do 5 eexists. reflexivity. Qed.

(* ================================================================== *)
(** * Truncation *)
(* ================================================================== *)

(** C5. For every page, the body text the scraper hands on has at most
    8000 characters, and the excerpt of every row the server ever stores
    has at most 400. *)
Theorem content_is_truncated :
  (forall (w : Env.t) (url title content : string) (s s' : State.t),
      scrape_wikipedia w url s = (Ok (title, content), s') ->
      Py.len content <= 8000) /\
  (forall (s : State.t) (q : Quiz.t),
      reachable s ->
      In q (State.quizzes s) ->
      Py.len (Quiz.content_excerpt q) <= 400).
Proof.
  split.
  - intros w url title content s s' H.
    apply scrape_wikipedia_returns in H as [_ [body ->]].
    apply slice_to_len. lia.
  - intros s q Hreach. revert q. apply Forall_forall.
    apply (reachable_ind
             (Forall (fun q => Py.len (Quiz.content_excerpt q) <= 400))).
    + constructor.
    + intros rows row IH _ _ Hlen. apply Forall_app. split; auto.
    + exact Hreach.
Qed.

Lemma one_quiz_reachable : reachable Sample.one_quiz.
Proof. exists [Generate (Sample.online 100) Sample.turing]. reflexivity. Defined.

Lemma content_is_truncated_witness :
  (scrape_wikipedia (Sample.online 100) "u" State.initial =
     (Ok ("Alan Turing", ("Alan" ++ Py.LF ++ "Turing")%string), State.initial) /\
   Py.len ("Alan" ++ Py.LF ++ "Turing")%string <= 8000) /\
  (reachable Sample.one_quiz /\
   (exists q, In q (State.quizzes Sample.one_quiz) /\
              Py.len (Quiz.content_excerpt q) <= 400)).
Proof.
  split.
  - split; [reflexivity |].
    apply (proj1 content_is_truncated (Sample.online 100) "u" "Alan Turing"
                 _ State.initial State.initial).
    reflexivity.
  - split; [exact one_quiz_reachable |].
    eexists. split; [left; reflexivity |].
    apply (proj2 content_is_truncated Sample.one_quiz _ one_quiz_reachable).
    left. reflexivity.
Defined.

(* ================================================================== *)
(** * Listing *)
(* ================================================================== *)

(** C6. In every state of the store, when the engine runs the query,
    [GET /quizzes] returns one summary for each stored quiz and no other:
    the listing is the stored rows, rearranged so that no row comes before
    a row with a later creation timestamp, each given by its [id], [title],
    [url] and [created_at]. *)
Theorem list_quizzes_newest_first :
  forall (w : Env.t) (s : State.t),
    Env.db_fault w SELECT_all = None ->
    exists rows s',
      GET_quizzes w s =
        (Ok (map (fun q => Summary.mk (Quiz.id q) (Quiz.title q) (Quiz.url q)
                                      (Quiz.created_at q)) rows), s') /\
      Permutation rows (State.quizzes s) /\
      StronglySorted (fun a b => Quiz.created_at b <= Quiz.created_at a) rows.
Proof.
  intros w s Hruns. unfold GET_quizzes.
  rewrite (list_quizzes_ok w s Hruns).
  exists (order_by_created_at_desc (State.quizzes s)). eexists.
  split; [reflexivity |]. split.
  - apply order_by_perm.
  - apply order_by_sorted.
Qed.

Lemma list_quizzes_newest_first_witness :
  Env.db_fault (Sample.online 300) SELECT_all = None /\
  fst (GET_quizzes (Sample.online 300)
         (serve_all [Generate (Sample.online 100) Sample.turing;
                     Generate (Sample.online 200) Sample.lovelace]
                    State.initial)) =
    Ok [Summary.mk 2 "Alan Turing"
                   "https://en.wikipedia.org/wiki/Ada_Lovelace" 200;
        Summary.mk 1 "Alan Turing"
                   "https://en.wikipedia.org/wiki/Alan_Turing" 100] /\
  exists rows s',
    GET_quizzes (Sample.online 300)
                (serve_all [Generate (Sample.online 100) Sample.turing;
                            Generate (Sample.online 200) Sample.lovelace]
                           State.initial) =
      (Ok (map (fun q => Summary.mk (Quiz.id q) (Quiz.title q) (Quiz.url q)
                                    (Quiz.created_at q)) rows), s') /\
    Permutation rows
      (State.quizzes
         (serve_all [Generate (Sample.online 100) Sample.turing;
                     Generate (Sample.online 200) Sample.lovelace]
                    State.initial)) /\
    StronglySorted (fun a b => Quiz.created_at b <= Quiz.created_at a) rows.
Proof.
  split; [reflexivity |]. split; [reflexivity |].
  apply list_quizzes_newest_first. reflexivity.
Defined.

(* ================================================================== *)
(** * Creating and retrieving *)
(* ================================================================== *)

(** When the body of [generate_quiz] returns, it has appended one row with
    the next rowid whose JSON column holds the two lists of the payload. *)
Lemma generate_quiz_body_returns (w : Env.t) (data : QuizCreate.t)
      (db : Session) (s s1 : State.t) (p : Payload.t) :
  generate_quiz_body w data db s = (Ok p, s1) ->
  exists row,
    s1 = State.with_quizzes s (State.quizzes s ++ [row]) /\
    Quiz.id row = next_rowid (State.quizzes s) /\
    Quiz.url row = QuizCreate.url data /\
    Quiz.quiz_data row =
      Py.Dict [("questions", Payload.quiz_data p);
               ("related_topics", Payload.related_topics p)] /\
    p = Payload.mk (Quiz.id row) (Quiz.url row) (Quiz.title row)
                   (Payload.quiz_data p) (Payload.related_topics p).
Proof.
  unfold generate_quiz_body, db_commit, db_refresh, db_add. run_monad.
  destruct (scrape_wikipedia w (QuizCreate.url data) s)
    as [[[t c] | e] s0] eqn:Hscrape; [| discriminate].
  apply scrape_wikipedia_returns in Hscrape as [-> _].
  rewrite (surjective_pairing (generate_quiz_with_gemini t c)).
  destruct (Env.db_fault w INSERT_quiz) as [e |]; cbn; [discriminate |].
  destruct (url_taken (QuizCreate.url data) (State.quizzes s)); cbn;
    [discriminate |].
  destruct (Env.db_fault w SELECT_refresh) as [e |]; cbn; [discriminate |].
  set (row := Quiz.mk _ _ _ _ _ _).
  assert (Hfind : find (fun q => Quiz.id q =? next_rowid (State.quizzes s))
                       (State.quizzes s ++ [row]) = Some row)
    by (apply (find_inserted (State.quizzes s) [] row); reflexivity).
  rewrite Hfind. intros H. inversion H; subst. exists row.
  repeat split; reflexivity.
Qed.

(** [get_quiz] for an id the query finds. *)
Lemma get_quiz_found (w : Env.t) (quiz_id : Z) (s : State.t) (quiz : Quiz.t)
      (entries : list (string * Py.value)) :
  Env.db_fault w (SELECT_by_id quiz_id) = None ->
  find (fun q => Quiz.id q =? quiz_id) (State.quizzes s) = Some quiz ->
  Quiz.quiz_data quiz = Py.Dict entries ->
  get_quiz w quiz_id s =
    (Ok (Payload.mk (Quiz.id quiz) (Quiz.url quiz) (Quiz.title quiz)
                    (Py.dict_get entries "questions" (Py.List []))
                    (Py.dict_get entries "related_topics" (Py.List []))),
     snd (db_close (State.next_session s) (snd (SessionLocal s)))).
Proof.
  intros Hruns Hfind Hdata.
  unfold get_quiz, query_first_by_id, json_get. run_monad.
  rewrite Hruns. cbn. rewrite Hfind, Hdata. reflexivity.
Qed.

(** [get_quiz] for an id the query does not find. *)
Lemma get_quiz_missing (w : Env.t) (quiz_id : Z) (s : State.t) :
  Env.db_fault w (SELECT_by_id quiz_id) = None ->
  find (fun q => Quiz.id q =? quiz_id) (State.quizzes s) = None ->
  get_quiz w quiz_id s =
    (Raise (HTTPException 404 "Quiz not found"),
     snd (db_close (State.next_session s) (snd (SessionLocal s)))).
Proof.
  intros Hruns Hfind.
  unfold get_quiz, query_first_by_id. run_monad.
  rewrite Hruns. cbn. rewrite Hfind. reflexivity.
Qed.

(** What [POST /generate] has done when it returns a response. *)
Lemma POST_generate_returns (w : Env.t) (data : QuizCreate.t)
      (s s1 : State.t) (resp : QuizResponse.t) :
  POST_generate w data s = (Ok resp, s1) ->
  exists row qs ts,
    State.quizzes s1 = State.quizzes s ++ [row] /\
    Quiz.id row = next_rowid (State.quizzes s) /\
    Quiz.url row = QuizCreate.url data /\
    Quiz.quiz_data row = Py.Dict [("questions", qs); ("related_topics", ts)] /\
    validate_QuizResponse
      (Payload.mk (Quiz.id row) (Quiz.url row) (Quiz.title row) qs ts) =
    Some resp.
Proof.
  unfold POST_generate, bind. rewrite generate_quiz_unfold. cbv zeta.
  destruct (generate_quiz_body _ _ _ _) as [[p | e] s0] eqn:Hbody;
    [| discriminate].
  apply generate_quiz_body_returns in Hbody
    as (row & -> & Hid & Hurl & Hdata & Hp).
  unfold response_model.
  destruct (validate_QuizResponse p) as [r |] eqn:Hvalid; [| discriminate].
  intros H. inversion H; subst.
  exists row, (Payload.quiz_data p), (Payload.related_topics p).
  rewrite <- Hp. auto.
Qed.

(** C2. A quiz that [POST /generate] created is returned by
    [GET /quizzes/{id}] with the same [quiz_data] and [related_topics]
    (and the same [id], [url] and [title]), whatever requests were served
    in between, provided the engine runs the lookup. *)
Theorem get_returns_what_generate_returned :
  forall (w : Env.t) (data : QuizCreate.t) (s s1 : State.t)
         (resp : QuizResponse.t) (later : list request) (w' : Env.t),
    POST_generate w data s = (Ok resp, s1) ->
    Env.db_fault w' (SELECT_by_id (QuizResponse.id resp)) = None ->
    exists resp' s2,
      GET_quiz w' (QuizResponse.id resp) (serve_all later s1) = (Ok resp', s2) /\
      QuizResponse.quiz_data resp' = QuizResponse.quiz_data resp /\
      QuizResponse.related_topics resp' = QuizResponse.related_topics resp /\
      resp' = resp.
Proof.
  intros w data s s1 resp later w' Hgen Hruns.
  apply POST_generate_returns in Hgen
    as (row & qs & ts & Hrows & Hid & Hurl & Hdata & Hvalid).
  assert (Hresp : QuizResponse.id resp = Quiz.id row).
  { unfold validate_QuizResponse in Hvalid. cbn in Hvalid.
    destruct qs; try discriminate. destruct ts; try discriminate.
    destruct (validate_items validate_Question items); try discriminate.
    destruct (validate_items as_str items0); try discriminate.
    inversion Hvalid. reflexivity. }
  destruct (serve_all_quizzes later s1) as [extra Hextra].
  assert (Hfind : find (fun q => Quiz.id q =? QuizResponse.id resp)
                       (State.quizzes (serve_all later s1)) = Some row).
  { rewrite Hextra, Hrows, Hresp, <- app_assoc. cbn.
    apply find_inserted. exact Hid. }
  unfold GET_quiz, bind.
  rewrite (get_quiz_found w' _ _ row _ Hruns Hfind Hdata). cbn.
  unfold response_model. rewrite Hvalid.
  do 2 eexists. split; [reflexivity | auto].
Qed.

Lemma get_returns_what_generate_returned_witness :
  POST_generate (Sample.online 100) Sample.turing State.initial =
    (Ok Sample.turing_response, Sample.one_quiz) /\
  Env.db_fault (Sample.online 300)
               (SELECT_by_id (QuizResponse.id Sample.turing_response)) = None /\
  exists resp' s2,
    GET_quiz (Sample.online 300) (QuizResponse.id Sample.turing_response)
             (serve_all [Generate (Sample.online 200) Sample.lovelace]
                        Sample.one_quiz)
      = (Ok resp', s2) /\
    QuizResponse.quiz_data resp' =
      QuizResponse.quiz_data Sample.turing_response /\
    QuizResponse.related_topics resp' =
      QuizResponse.related_topics Sample.turing_response /\
    resp' = Sample.turing_response.
Proof.
  split; [reflexivity |]. split; [reflexivity |].
  apply (get_returns_what_generate_returned
           (Sample.online 100) Sample.turing State.initial Sample.one_quiz
           Sample.turing_response
           [Generate (Sample.online 200) Sample.lovelace] (Sample.online 300));
    reflexivity.
Defined.

(** C1. For every URL that is not stored and whose page answers with a
    heading (whatever its paragraphs), when the engine runs the statements,
    [POST /generate] returns a response with exactly 2 question records in
    [quiz_data] and exactly 3 strings in [related_topics], and every later
    [GET /quizzes] whose query runs lists an entry for that URL. *)
Theorem generate_returns_quiz_and_lists_it :
  forall (w : Env.t) (data : QuizCreate.t) (s : State.t)
         (page : Response.t) (heading : string),
    Env.storage_ok w ->
    ~ In (QuizCreate.url data) (map Quiz.url (State.quizzes s)) ->
    Env.requests_get w (QuizCreate.url data) = Ok page ->
    Response.raise_for_status page = Ok tt ->
    Soup.find_h1 (Env.BeautifulSoup w (Response.text page)) = Some heading ->
    exists resp s1,
      POST_generate w data s = (Ok resp, s1) /\
      length (QuizResponse.quiz_data resp) = 2%nat /\
      length (QuizResponse.related_topics resp) = 3%nat /\
      forall (later : list request) (w' : Env.t),
        Env.db_fault w' SELECT_all = None ->
        exists listing s2,
          GET_quizzes w' (serve_all later s1) = (Ok listing, s2) /\
          In (QuizCreate.url data) (map Summary.url listing).
Proof.
  intros w data s page heading Hstorage Hnew Hget Hstatus Hh1.
  apply url_taken_false in Hnew.
  pose proof (scrape_wikipedia_ok w (QuizCreate.url data)
                (snd (SessionLocal s)) page heading Hget Hstatus Hh1)
    as Hscrape.
  set (content := Py.slice_to 8000 _) in Hscrape.
  pose proof (generate_quiz_body_ok w data (State.next_session s)
                (snd (SessionLocal s)) heading content Hscrape
                (proj1 Hstorage) (proj2 Hstorage) Hnew)
    as Hbody.
  destruct (generated_validates (next_rowid (State.quizzes s))
              (QuizCreate.url data) heading heading content)
    as (q1 & q2 & t1 & t2 & t3 & Hvalid).
  unfold POST_generate, bind. rewrite generate_quiz_unfold. cbv zeta.
  rewrite Hbody. unfold response_model. cbn [SessionLocal snd State.quizzes].
  rewrite Hvalid. cbn [ret].
  do 2 eexists. split; [reflexivity |].
  split; [reflexivity |]. split; [reflexivity |].
  intros later w' Hruns.
  unfold GET_quizzes. rewrite (list_quizzes_ok w' _ Hruns).
  do 2 eexists. split; [reflexivity |].
  match goal with
  | |- context [serve_all later ?st] =>
      destruct (serve_all_quizzes later st) as [extra Hextra]
  end.
  rewrite Hextra. cbn [db_close snd State.quizzes State.with_quizzes].
  rewrite map_map. apply in_map_iff.
  eexists. split; [| eapply Permutation_in;
                     [apply Permutation_sym, order_by_perm |]].
  2: { apply in_or_app. left. apply in_or_app. right. left. reflexivity. }
  reflexivity.
Qed.

Lemma generate_returns_quiz_and_lists_it_witness :
  Env.storage_ok (Sample.online 100) /\
  ~ In (QuizCreate.url Sample.lovelace)
       (map Quiz.url (State.quizzes Sample.one_quiz)) /\
  exists resp s1,
    POST_generate (Sample.online 100) Sample.lovelace Sample.one_quiz =
      (Ok resp, s1) /\
    length (QuizResponse.quiz_data resp) = 2%nat /\
    length (QuizResponse.related_topics resp) = 3%nat /\
    forall (later : list request) (w' : Env.t),
      Env.db_fault w' SELECT_all = None ->
      exists listing s2,
        GET_quizzes w' (serve_all later s1) = (Ok listing, s2) /\
        In (QuizCreate.url Sample.lovelace) (map Summary.url listing).
Proof.
  split; [split; reflexivity |].
  split; [cbn; intros [H | []]; discriminate |].
  apply (generate_returns_quiz_and_lists_it
           (Sample.online 100) Sample.lovelace Sample.one_quiz
           (Response.mk 200 "OK" (QuizCreate.url Sample.lovelace) "<html>")
           "Alan Turing").
  - split; reflexivity.
  - cbn. intros [H | []]. discriminate.
  - reflexivity.
  - reflexivity.
  - reflexivity.
Defined.

(* ================================================================== *)
(** * The unique index on url *)
(* ================================================================== *)

Lemma NoDup_snoc {A} (l : list A) (x : A) :
  NoDup l -> ~ In x l -> NoDup (l ++ [x]).
Proof.
  intros Hl Hx. apply Permutation_NoDup with (x :: l).
  - apply Permutation_cons_append.
  - constructor; assumption.
Qed.

(** C3. In every state the server reaches, no two stored quizzes share a
    url; and a [POST /generate] for a url that is stored always fails with
    the HTTP 500 error and adds no record.  The failure is the violation of
    the unique index (SQLAlchemy's [IntegrityError], whose text is the
    detail) when the page is scraped and the engine runs the INSERT; when
    the scraper fails, the failure is the scraper's exception and no
    statement reaches the storage; when the engine refuses the INSERT, it
    is the engine's exception. *)
Theorem url_is_unique :
  forall (s : State.t),
    reachable s ->
    NoDup (map Quiz.url (State.quizzes s)) /\
    forall (w : Env.t) (data : QuizCreate.t),
      In (QuizCreate.url data) (map Quiz.url (State.quizzes s)) ->
      exists e s',
        generate_quiz_body w data (State.next_session s) (snd (SessionLocal s))
          = (Raise e, snd (SessionLocal s)) /\
        POST_generate w data s = (Raise (HTTPException 500 (str e)), s') /\
        State.quizzes s' = State.quizzes s /\
        (forall title content,
            fst (scrape_wikipedia w (QuizCreate.url data) s)
              = Ok (title, content) ->
            Env.db_fault w INSERT_quiz = None ->
            e = IntegrityError (Env.integrity_text w)) /\
        (forall title content cause,
            fst (scrape_wikipedia w (QuizCreate.url data) s)
              = Ok (title, content) ->
            Env.db_fault w INSERT_quiz = Some cause ->
            e = cause) /\
        (forall cause,
            fst (scrape_wikipedia w (QuizCreate.url data) s) = Raise cause ->
            e = cause).
Proof.
  intros s Hreach. split.
  - apply (reachable_ind (fun rows => NoDup (map Quiz.url rows)));
      [constructor | | exact Hreach].
    intros rows row IH _ Hnew _. rewrite map_app. cbn.
    apply NoDup_snoc; [exact IH |]. apply url_taken_false. exact Hnew.
  - intros w data Hstored. apply url_taken_true in Hstored.
    destruct (generate_quiz_body_taken w data (State.next_session s)
                (snd (SessionLocal s)) Hstored) as (e & Hbody & Hkind).
    exists e. eexists. split; [exact Hbody |].
    split.
    { unfold POST_generate, bind. rewrite generate_quiz_unfold. cbv zeta.
      rewrite Hbody. reflexivity. }
    split; [reflexivity |].
    assert (Hlift : forall r,
               fst (scrape_wikipedia w (QuizCreate.url data) s) = r ->
               scrape_wikipedia w (QuizCreate.url data) (snd (SessionLocal s))
               = (r, snd (SessionLocal s))).
    { intros r Hr. rewrite (scrape_wikipedia_pure w _ _ s), Hr. reflexivity. }
    split; [| split].
    + intros title content Hscrape Hruns.
      apply (Hkind title content); [apply Hlift; exact Hscrape | exact Hruns].
    + intros title content cause Hscrape Hfault.
      revert Hbody. unfold generate_quiz_body, db_commit. run_monad.
      rewrite (Hlift _ Hscrape), Hfault.
      rewrite (surjective_pairing (generate_quiz_with_gemini title content)).
      intros H. inversion H. reflexivity.
    + intros cause Hscrape. revert Hbody.
      unfold generate_quiz_body. run_monad.
      rewrite (Hlift _ Hscrape). intros H. inversion H. reflexivity.
Qed.

Lemma url_is_unique_witness :
  reachable Sample.one_quiz /\
  NoDup (map Quiz.url (State.quizzes Sample.one_quiz)) /\
  In (QuizCreate.url Sample.turing)
     (map Quiz.url (State.quizzes Sample.one_quiz)) /\
  exists e s',
    generate_quiz_body (Sample.online 200) Sample.turing
                       (State.next_session Sample.one_quiz)
                       (snd (SessionLocal Sample.one_quiz))
      = (Raise e, snd (SessionLocal Sample.one_quiz)) /\
    POST_generate (Sample.online 200) Sample.turing Sample.one_quiz =
      (Raise (HTTPException 500 (str e)), s') /\
    State.quizzes s' = State.quizzes Sample.one_quiz /\
    e = IntegrityError Sample.integrity_text.
Proof.
  split; [exact one_quiz_reachable |].
  split; [exact (proj1 (url_is_unique Sample.one_quiz one_quiz_reachable)) |].
  split; [left; reflexivity |].
  destruct (proj2 (url_is_unique Sample.one_quiz one_quiz_reachable)
                  (Sample.online 200) Sample.turing
                  (or_introl eq_refl))
    as (e & s' & Hbody & Hpost & Hsame & Hkind & _).
  exists e, s'. split; [exact Hbody |]. split; [exact Hpost |].
  split; [exact Hsame |].
  apply (Hkind "Alan Turing" ("Alan" ++ Py.LF ++ "Turing")%string);
    reflexivity.
Defined.

(** The claim without the condition on the page fails: the quiz for the
    url is stored, the page now answers 404, and the second create fails
    with the scraper's exception; no [IntegrityError] is raised and the
    detail of the HTTP 500 error is the scraping message. *)
Lemma url_is_unique_counterexample :
  In (QuizCreate.url Sample.turing)
     (map Quiz.url (State.quizzes Sample.one_quiz)) /\
  POST_generate Sample.not_found Sample.turing Sample.one_quiz =
    (Raise (HTTPException 500
              "Error scraping Wikipedia: 404 Client Error: Not Found for url: https://en.wikipedia.org/wiki/Alan_Turing"),
     snd (POST_generate Sample.not_found Sample.turing Sample.one_quiz)) /\
  ~ (exists text s1,
        generate_quiz_body Sample.not_found Sample.turing
                           (State.next_session Sample.one_quiz)
                           (snd (SessionLocal Sample.one_quiz))
          = (Raise (IntegrityError text), s1)).
Proof.
  split; [left; reflexivity |]. split; [reflexivity |].
  intros (text & s1 & H). discriminate H.
Qed.

(* ================================================================== *)
(** * Not found *)
(* ================================================================== *)

(** C4. For every [quiz_id] whose lookup is run (the driver binds the id
    and the engine executes the query; with the sqlite3 driver of the
    default configuration that is every id in the signed 64-bit range):
    if it is not the id of a stored quiz, [GET /quizzes/{id}] fails with
    status 404 and detail "Quiz not found"; if it is, the request does not
    fail that way. *)
Theorem get_quiz_not_found :
  forall (w : Env.t) (quiz_id : Z) (s : State.t),
    Env.db_fault w (SELECT_by_id quiz_id) = None ->
    (~ In quiz_id (map Quiz.id (State.quizzes s)) ->
     exists s',
       GET_quiz w quiz_id s = (Raise (HTTPException 404 "Quiz not found"), s'))
    /\
    (In quiz_id (map Quiz.id (State.quizzes s)) ->
     forall s',
       GET_quiz w quiz_id s <> (Raise (HTTPException 404 "Quiz not found"), s')).
Proof.
  intros w quiz_id s Hruns. split.
  - intros Hmissing.
    assert (Hfind : find (fun q => Quiz.id q =? quiz_id) (State.quizzes s)
                    = None).
    { apply find_id_none. intros q Hq Heq. apply Hmissing.
      rewrite <- Heq. apply in_map. exact Hq. }
    unfold GET_quiz, bind. rewrite (get_quiz_missing w quiz_id s Hruns Hfind).
    eexists. reflexivity.
  - intros Hstored s'.
    destruct (find_id_some _ _ Hstored) as [quiz Hfind].
    unfold GET_quiz, get_quiz, query_first_by_id, json_get, response_model.
    run_monad. rewrite Hruns. cbn. rewrite Hfind.
    destruct (Py.get (Quiz.quiz_data quiz) "questions" _); cbn;
      [| discriminate].
    destruct (Py.get (Quiz.quiz_data quiz) "related_topics" _); cbn;
      [| discriminate].
    destruct (validate_QuizResponse _); discriminate.
Qed.

Lemma get_quiz_not_found_witness :
  Scenario.int64 7 = true /\
  Env.db_fault (Scenario.sqlite 300) (SELECT_by_id 7) = None /\
  Env.db_fault (Scenario.sqlite 300) (SELECT_by_id 1) = None /\
  (~ In 7 (map Quiz.id (State.quizzes Sample.one_quiz)) /\
   exists s',
     GET_quiz (Scenario.sqlite 300) 7 Sample.one_quiz =
       (Raise (HTTPException 404 "Quiz not found"), s')) /\
  (In 1 (map Quiz.id (State.quizzes Sample.one_quiz)) /\
   forall s',
     GET_quiz (Scenario.sqlite 300) 1 Sample.one_quiz <>
       (Raise (HTTPException 404 "Quiz not found"), s')).
Proof.
  split; [reflexivity |]. split; [reflexivity |]. split; [reflexivity |].
  split.
  - split; [cbn; intros [H | []]; discriminate |].
    apply (proj1 (get_quiz_not_found (Scenario.sqlite 300) 7 Sample.one_quiz
                                     eq_refl)).
    cbn. intros [H | []]. discriminate.
  - split; [left; reflexivity |].
    apply (proj2 (get_quiz_not_found (Scenario.sqlite 300) 1 Sample.one_quiz
                                     eq_refl)).
    left. reflexivity.
Defined.

(** With the sqlite3 driver every id in the signed 64-bit range is looked
    up. *)
Lemma sqlite3_runs_int64_lookups (k : Z) :
  Scenario.int64 k = true ->
  Scenario.sqlite3_faults (SELECT_by_id k) = None.
Proof. intros H. cbn. rewrite H. reflexivity. Qed.

(** The claim for every [quiz_id] fails: 2^63 is not the id of a stored
    quiz, and with the sqlite3 driver [GET /quizzes/9223372036854775808]
    does not answer 404: binding the id raises [OverflowError], which
    leaves the handler as it is (and before [db.close()]). *)
Lemma get_quiz_not_found_counterexample :
  ~ In (2 ^ 63) (map Quiz.id (State.quizzes Sample.one_quiz)) /\
  GET_quiz (Scenario.sqlite 300) (2 ^ 63) Sample.one_quiz =
    (Raise (LibraryError "OverflowError"
                         "Python int too large to convert to SQLite INTEGER"),
     snd (SessionLocal Sample.one_quiz)) /\
  forall s',
    GET_quiz (Scenario.sqlite 300) (2 ^ 63) Sample.one_quiz <>
      (Raise (HTTPException 404 "Quiz not found"), s').
Proof.
  split; [cbn; intros [H | []]; discriminate |].
  split; [reflexivity |].
  intros s' H. discriminate H.
Qed.

(* ================================================================== *)
(** * Failures of the create pipeline *)
(* ================================================================== *)

(** Fetch: a transport failure of [requests.get] reaches the handler as
    the scraper's [Exception]. *)
Lemma body_fetch_failure (w : Env.t) (data : QuizCreate.t) (db : Session)
      (s : State.t) (cause : exn) :
  Env.requests_get w (QuizCreate.url data) = Raise cause ->
  generate_quiz_body w data db s =
    (Raise (Exception ("Error scraping Wikipedia: " ++ str cause)%string), s).
Proof.
  intros H. unfold generate_quiz_body, scrape_wikipedia. run_monad.
  rewrite H. reflexivity.
Qed.

(** Fetch: so does a 4xx or 5xx status. *)
Lemma body_status_failure (w : Env.t) (data : QuizCreate.t) (db : Session)
      (s : State.t) (page : Response.t) (cause : exn) :
  Env.requests_get w (QuizCreate.url data) = Ok page ->
  Response.raise_for_status page = Raise cause ->
  generate_quiz_body w data db s =
    (Raise (Exception ("Error scraping Wikipedia: " ++ str cause)%string), s).
Proof.
  intros H1 H2. unfold generate_quiz_body, scrape_wikipedia. run_monad.
  rewrite H1, H2. reflexivity.
Qed.

(** Extraction: so does a page without a heading. *)
Lemma body_heading_missing (w : Env.t) (data : QuizCreate.t) (db : Session)
      (s : State.t) (page : Response.t) :
  Env.requests_get w (QuizCreate.url data) = Ok page ->
  Response.raise_for_status page = Ok tt ->
  Soup.find_h1 (Env.BeautifulSoup w (Response.text page)) = None ->
  generate_quiz_body w data db s =
    (Raise (Exception
              "Error scraping Wikipedia: 'NoneType' object has no attribute 'text'"),
     s).
Proof.
  intros H1 H2 H3. unfold generate_quiz_body, scrape_wikipedia. run_monad.
  rewrite H1, H2, H3. reflexivity.
Qed.

(** Storage: a statement the engine refuses raises the engine's
    exception. *)
Lemma body_insert_refused (w : Env.t) (data : QuizCreate.t) (db : Session)
      (s : State.t) (title content : string) (cause : exn) :
  scrape_wikipedia w (QuizCreate.url data) s = (Ok (title, content), s) ->
  Env.db_fault w INSERT_quiz = Some cause ->
  generate_quiz_body w data db s = (Raise cause, s).
Proof.
  intros H1 H2. unfold generate_quiz_body, db_commit. run_monad.
  rewrite H1, H2.
  rewrite (surjective_pairing (generate_quiz_with_gemini title content)).
  reflexivity.
Qed.

(** C7. Whatever exception [e] the create pipeline raises (the scraper's
    exception for a failed fetch or extraction, the storage exception for a
    failed INSERT or refresh), [POST /generate] fails with the HTTP 500
    error whose detail is [str(e)]; and [POST /generate] has no other way
    to fail. *)
Theorem generate_failure_is_http_500 :
  forall (w : Env.t) (data : QuizCreate.t) (s : State.t),
    (forall e s1,
        generate_quiz_body w data (State.next_session s) (snd (SessionLocal s))
          = (Raise e, s1) ->
        exists s2,
          POST_generate w data s = (Raise (HTTPException 500 (str e)), s2)) /\
    (forall x s2,
        POST_generate w data s = (Raise x, s2) ->
        exists e s1,
          generate_quiz_body w data (State.next_session s)
                             (snd (SessionLocal s)) = (Raise e, s1) /\
          x = HTTPException 500 (str e)).
Proof.
  intros w data s. split.
  - intros e s1 Hbody.
    unfold POST_generate, bind. rewrite generate_quiz_unfold. cbv zeta.
    rewrite Hbody. eexists. reflexivity.
  - intros x s2.
    unfold POST_generate, bind. rewrite generate_quiz_unfold. cbv zeta.
    destruct (generate_quiz_body _ _ _ _) as [[p | e] s1] eqn:Hbody.
    + unfold response_model.
      unfold generate_quiz_body, db_commit, db_refresh, db_add in Hbody.
      run_monad.
      destruct (scrape_wikipedia _ _ _) as [[[t c] | e] s0];
        [| discriminate].
      rewrite (surjective_pairing (generate_quiz_with_gemini t c)) in Hbody.
      destruct (Env.db_fault w INSERT_quiz); [discriminate |].
      cbn in Hbody. destruct (url_taken _ _); [discriminate |].
      destruct (Env.db_fault w SELECT_refresh); [discriminate |].
      cbn in Hbody. destruct (find _ _) as [row |]; [| discriminate].
      inversion Hbody; subst.
      destruct (generated_validates (Quiz.id row) (Quiz.url row)
                  (Quiz.title row) t c)
        as (q1 & q2 & t1 & t2 & t3 & Hvalid).
      change (validate_QuizResponse _) with
        (validate_QuizResponse
           (Payload.mk (Quiz.id row) (Quiz.url row) (Quiz.title row)
                       (fst (generate_quiz_with_gemini t c))
                       (snd (generate_quiz_with_gemini t c)))).
      rewrite Hvalid. cbn. intros H. discriminate H.
    + intros H. inversion H; subst. eauto.
Qed.

Lemma generate_failure_is_http_500_witness :
  generate_quiz_body Sample.not_found Sample.turing
                     (State.next_session State.initial)
                     (snd (SessionLocal State.initial))
    = (Raise (Exception
                "Error scraping Wikipedia: 404 Client Error: Not Found for url: https://en.wikipedia.org/wiki/Alan_Turing"),
       snd (SessionLocal State.initial)) /\
  (exists s2,
      POST_generate Sample.not_found Sample.turing State.initial =
        (Raise (HTTPException 500
                  "Error scraping Wikipedia: 404 Client Error: Not Found for url: https://en.wikipedia.org/wiki/Alan_Turing"),
         s2)) /\
  POST_generate Sample.locked Sample.turing State.initial =
    (Raise (HTTPException 500 "database is locked"),
     State.mk [] [] 1%nat) /\
  exists e s1,
    generate_quiz_body Sample.locked Sample.turing
                       (State.next_session State.initial)
                       (snd (SessionLocal State.initial)) = (Raise e, s1) /\
    HTTPException 500 "database is locked" = HTTPException 500 (str e).
Proof.
  split; [reflexivity |]. split.
  - apply (proj1 (generate_failure_is_http_500
                    Sample.not_found Sample.turing State.initial)
                 (Exception
                    "Error scraping Wikipedia: 404 Client Error: Not Found for url: https://en.wikipedia.org/wiki/Alan_Turing")
                 (snd (SessionLocal State.initial))).
    reflexivity.
  - split; [reflexivity |].
    apply (proj2 (generate_failure_is_http_500
                    Sample.locked Sample.turing State.initial)
                 (HTTPException 500 "database is locked")
                 (State.mk [] [] 1%nat)).
    reflexivity.
Defined.

(* ================================================================== *)
(** * Sessions *)
(* ================================================================== *)

Lemma session_live_after_open (s : State.t) :
  In (State.next_session s) (State.live_sessions (snd (SessionLocal s))).
Proof. left. reflexivity. Qed.

(** [generate_quiz] closes its session on every outcome: the [finally]
    clause runs after a return and after the translated exception. *)
Lemma generate_quiz_closes_session (w : Env.t) (data : QuizCreate.t)
      (s : State.t) :
  ~ In (State.next_session s)
       (State.live_sessions (snd (generate_quiz w data s))).
Proof.
  rewrite generate_quiz_unfold. cbv zeta.
  destruct (generate_quiz_body _ _ _ _) as [[p | e] s1];
    apply db_close_not_live.
Qed.

(** [list_quizzes] closes its session when the query returns. *)
Lemma list_quizzes_closes_session (w : Env.t) (s : State.t) :
  Env.db_fault w SELECT_all = None ->
  ~ In (State.next_session s)
       (State.live_sessions (snd (list_quizzes w s))).
Proof.
  intros H. rewrite (list_quizzes_ok w s H). apply db_close_not_live.
Qed.

(** [get_quiz] closes its session when the query returns, before it looks
    at the result: also on the 404 path. *)
Lemma get_quiz_closes_session (w : Env.t) (quiz_id : Z) (s : State.t) :
  Env.db_fault w (SELECT_by_id quiz_id) = None ->
  ~ In (State.next_session s)
       (State.live_sessions (snd (get_quiz w quiz_id s))).
Proof.
  intros H. unfold get_quiz, query_first_by_id, json_get. run_monad.
  rewrite H. cbn [SessionLocal].
  destruct (find _ _) as [quiz |]; cbn -[filter In].
  - destruct (Py.get (Quiz.quiz_data quiz) "questions" _); cbn -[filter In].
    + destruct (Py.get (Quiz.quiz_data quiz) "related_topics" _);
        cbn -[filter In];
        apply (db_close_not_live (State.next_session s)
                                 (snd (SessionLocal s))).
    + apply (db_close_not_live (State.next_session s) (snd (SessionLocal s))).
  - apply (db_close_not_live (State.next_session s) (snd (SessionLocal s))).
Qed.

(** When the query of [list_quizzes] raises, the exception leaves the
    handler before [db.close()] is reached: the session stays open. *)
Lemma list_quizzes_query_raises (w : Env.t) (s : State.t) (e : exn) :
  Env.db_fault w SELECT_all = Some e ->
  list_quizzes w s = (Raise e, snd (SessionLocal s)).
Proof.
  intros H. unfold list_quizzes, query_all_newest_first. run_monad.
  rewrite H. reflexivity.
Qed.

(** The same holds for [get_quiz]. *)
Lemma get_quiz_query_raises (w : Env.t) (quiz_id : Z) (s : State.t) (e : exn) :
  Env.db_fault w (SELECT_by_id quiz_id) = Some e ->
  get_quiz w quiz_id s = (Raise e, snd (SessionLocal s)).
Proof.
  intros H. unfold get_quiz, query_first_by_id. run_monad.
  rewrite H. reflexivity.
Qed.

(** C8. [GET /quizzes] against a database that refuses the query: the
    exception of the query propagates and the session the handler opened
    (session 0) is still open.  [generate_quiz] closes its session in a
    [finally] clause; [list_quizzes] and [get_quiz] call [db.close()] only
    after the query has returned. *)
Theorem list_quizzes_leaves_session_open :
  GET_quizzes Sample.locked State.initial =
    (Raise (LibraryError "OperationalError" "database is locked"),
     State.mk [] [0%nat] 1%nat) /\
  In (State.next_session State.initial)
     (State.live_sessions (snd (GET_quizzes Sample.locked State.initial))) /\
  GET_quiz Sample.locked 1 State.initial =
    (Raise (LibraryError "OperationalError" "database is locked"),
     State.mk [] [0%nat] 1%nat) /\
  POST_generate Sample.locked Sample.turing State.initial =
    (Raise (HTTPException 500 "database is locked"), State.mk [] [] 1%nat).
Proof.
  split; [reflexivity |]. split; [left; reflexivity |].
  split; reflexivity.
Qed.

(* ================================================================== *)
(** * The scraper, case by case *)
(* ================================================================== *)

Lemma slice_to_prefix (s : string) :
  forall k, exists rest, s = (Py.slice_to k s ++ rest)%string.
Proof.
  induction s as [| c tail IH]; intros k.
  - exists EmptyString. reflexivity.
  - unfold Py.slice_to; fold Py.slice_to.
    destruct (k <=? 0).
    + exists (String c tail). reflexivity.
    + destruct (IH (k - 1)) as [rest Hrest].
      exists rest.
      change (String c tail = String c (Py.slice_to (k - 1) tail ++ rest)%string).
      f_equal. exact Hrest.
Qed.

Lemma slice_to_exact_len (s : string) :
  forall k, 0 <= k -> Py.len (Py.slice_to k s) = Z.min k (Py.len s).
Proof.
  unfold Py.len.
  induction s as [| c tail IH]; intros k Hk.
  - unfold Py.slice_to. cbn [String.length]. lia.
  - unfold Py.slice_to; fold Py.slice_to.
    destruct (k <=? 0) eqn:E.
    + apply Z.leb_le in E. cbn [String.length]. lia.
    + apply Z.leb_gt in E. cbn [String.length].
      specialize (IH (k - 1)). lia.
Qed.

Lemma slice_to_slice_to (s : string) :
  forall a b, a <= b -> Py.slice_to a (Py.slice_to b s) = Py.slice_to a s.
Proof.
  induction s as [| c tail IH]; intros a b Hab.
  - reflexivity.
  - unfold Py.slice_to; fold Py.slice_to.
    destruct (b <=? 0) eqn:Eb.
    + apply Z.leb_le in Eb.
      assert (Ea : (a <=? 0) = true) by (apply Z.leb_le; lia).
      rewrite Ea. reflexivity.
    + unfold Py.slice_to; fold Py.slice_to.
      destruct (a <=? 0); [reflexivity |].
      f_equal. apply IH. lia.
Qed.

(** What the page was like when the scraper returns. *)
Lemma scrape_wikipedia_returned_page (w : Env.t) (u : string) (s : State.t)
      (title content : string) :
  fst (scrape_wikipedia w u s) = Ok (title, content) ->
  exists page,
    Env.requests_get w u = Ok page /\
    Response.raise_for_status page = Ok tt /\
    Soup.find_h1 (Env.BeautifulSoup w (Response.text page)) = Some title /\
    content =
      Py.slice_to 8000
        (Py.join Py.LF
           (Soup.select_paragraphs
              (Env.BeautifulSoup w (Response.text page)))).
Proof.
  unfold scrape_wikipedia. run_monad.
  destruct (Env.requests_get w u) as [response | cause] eqn:Hget; cbn;
    [| discriminate].
  destruct (Response.raise_for_status response) as [[] | cause] eqn:Hstatus;
    cbn; [| discriminate].
  destruct (Soup.find_h1 (Env.BeautifulSoup w (Response.text response)))
    as [heading |] eqn:Hh1; cbn; [| discriminate].
  intros H. inversion H; subst. exists response. auto.
Qed.

(** X1. [scrape_wikipedia] returns exactly when the request is answered,
    the status is not an error status and the page has an [h1]; it then
    returns the text of that [h1] and the first 8000 characters of the
    paragraph texts joined by line feeds. *)
Theorem scrape_wikipedia_returns_iff :
  forall (w : Env.t) (u : string) (s : State.t) (title content : string),
    fst (scrape_wikipedia w u s) = Ok (title, content) <->
    exists page,
      Env.requests_get w u = Ok page /\
      Response.raise_for_status page = Ok tt /\
      Soup.find_h1 (Env.BeautifulSoup w (Response.text page)) = Some title /\
      content =
        Py.slice_to 8000
          (Py.join Py.LF
             (Soup.select_paragraphs
                (Env.BeautifulSoup w (Response.text page)))).
Proof.
  intros w u s title content. split.
  - apply scrape_wikipedia_returned_page.
  - intros (page & Hget & Hstatus & Hh1 & ->).
    rewrite (scrape_wikipedia_ok w u s page title Hget Hstatus Hh1).
    reflexivity.
Qed.

(** X2. Whatever goes wrong in [scrape_wikipedia] (the request raises, the
    status is an error status, the page has no [h1]), the caller sees a
    plain [Exception] whose message is "Error scraping Wikipedia: "
    followed by the message of the cause, and the state is untouched. *)
Theorem scrape_wikipedia_wraps_every_failure :
  forall (w : Env.t) (u : string) (s : State.t),
    snd (scrape_wikipedia w u s) = s /\
    ((forall cause,
         Env.requests_get w u = Raise cause ->
         fst (scrape_wikipedia w u s) =
           Raise (Exception ("Error scraping Wikipedia: " ++ str cause)%string))
     /\
     (forall page cause,
         Env.requests_get w u = Ok page ->
         Response.raise_for_status page = Raise cause ->
         fst (scrape_wikipedia w u s) =
           Raise (Exception ("Error scraping Wikipedia: " ++ str cause)%string))
     /\
     (forall page,
         Env.requests_get w u = Ok page ->
         Response.raise_for_status page = Ok tt ->
         Soup.find_h1 (Env.BeautifulSoup w (Response.text page)) = None ->
         fst (scrape_wikipedia w u s) =
           Raise (Exception
                    "Error scraping Wikipedia: 'NoneType' object has no attribute 'text'"))
     /\
     (forall e,
         fst (scrape_wikipedia w u s) = Raise e ->
         exists cause,
           e = Exception ("Error scraping Wikipedia: " ++ str cause)%string)).
Proof.
  intros w u s. split; [| repeat split].
  - rewrite (scrape_wikipedia_pure w u s s). reflexivity.
  - intros cause H. unfold scrape_wikipedia. run_monad. rewrite H. reflexivity.
  - intros page cause H1 H2. unfold scrape_wikipedia. run_monad.
    rewrite H1, H2. reflexivity.
  - intros page H1 H2 H3. unfold scrape_wikipedia. run_monad.
    rewrite H1, H2, H3. reflexivity.
  - intros e H.
    destruct (scrape_wikipedia w u s) as [r s'] eqn:Hrun. cbn in H. subst r.
    apply scrape_wikipedia_raises in Hrun as [_ Hcause]. exact Hcause.
Qed.

Lemma scrape_wikipedia_wraps_every_failure_witness :
  (Env.requests_get Scenario.offline "u" =
     Raise (LibraryError "ConnectionError" "connection refused") /\
   fst (scrape_wikipedia Scenario.offline "u" State.initial) =
     Raise (Exception "Error scraping Wikipedia: connection refused")) /\
  (Response.raise_for_status (Response.mk 404 "Not Found" "u" "") =
     Raise (HTTPError "404 Client Error: Not Found for url: u") /\
   fst (scrape_wikipedia Sample.not_found "u" State.initial) =
     Raise (Exception
              "Error scraping Wikipedia: 404 Client Error: Not Found for url: u")) /\
  (Soup.find_h1 (Env.BeautifulSoup Scenario.no_heading "<html>") = None /\
   fst (scrape_wikipedia Scenario.no_heading "u" State.initial) =
     Raise (Exception
              "Error scraping Wikipedia: 'NoneType' object has no attribute 'text'")).
Proof.
  split; [| split]; (split; [reflexivity |]).
  - apply (proj1 (proj2 (scrape_wikipedia_wraps_every_failure
                           Scenario.offline "u" State.initial))
                 (LibraryError "ConnectionError" "connection refused")).
    reflexivity.
  - apply (proj1 (proj2 (proj2 (scrape_wikipedia_wraps_every_failure
                                  Sample.not_found "u" State.initial)))
                 (Response.mk 404 "Not Found" "u" "")
                 (HTTPError "404 Client Error: Not Found for url: u"));
      reflexivity.
  - apply (proj1 (proj2 (proj2 (proj2 (scrape_wikipedia_wraps_every_failure
                                         Scenario.no_heading "u"
                                         State.initial))))
                 (Response.mk 200 "OK" "u" "<html>"));
      reflexivity.
Defined.

(** X3. The content [scrape_wikipedia] returns is a prefix of the joined
    paragraph text, of length exactly the smaller of 8000 and the length of
    that text: a page of at most 8000 characters is returned whole. *)
Theorem scrape_wikipedia_content_is_prefix :
  forall (w : Env.t) (u : string) (s : State.t) (page : Response.t)
         (title content : string),
    Env.requests_get w u = Ok page ->
    fst (scrape_wikipedia w u s) = Ok (title, content) ->
    let text := Py.join Py.LF
                  (Soup.select_paragraphs
                     (Env.BeautifulSoup w (Response.text page))) in
    (exists rest, text = (content ++ rest)%string) /\
    Py.len content = Z.min 8000 (Py.len text) /\
    (Py.len text <= 8000 -> content = text).
Proof.
  intros w u s page title content Hget Hrun text.
  apply scrape_wikipedia_returned_page in Hrun
    as (page' & Hget' & _ & _ & Hcontent).
  rewrite Hget in Hget'. inversion Hget'; subst page'.
  fold text in Hcontent. subst content. repeat split.
  - apply slice_to_prefix.
  - apply slice_to_exact_len. lia.
  - intros Hshort. apply slice_to_short. exact Hshort.
Qed.

Lemma scrape_wikipedia_content_is_prefix_witness :
  Env.requests_get (Sample.online 100) "u" =
    Ok (Response.mk 200 "OK" "u" "<html>") /\
  fst (scrape_wikipedia (Sample.online 100) "u" State.initial) =
    Ok ("Alan Turing", ("Alan" ++ Py.LF ++ "Turing")%string) /\
  (exists rest,
      ("Alan" ++ Py.LF ++ "Turing")%string =
      (("Alan" ++ Py.LF ++ "Turing") ++ rest)%string) /\
  Py.len ("Alan" ++ Py.LF ++ "Turing")%string =
    Z.min 8000 (Py.len ("Alan" ++ Py.LF ++ "Turing")%string) /\
  (Py.len ("Alan" ++ Py.LF ++ "Turing")%string <= 8000 ->
   ("Alan" ++ Py.LF ++ "Turing")%string = ("Alan" ++ Py.LF ++ "Turing")%string).
Proof.
  split; [reflexivity |]. split; [reflexivity |].
  apply (scrape_wikipedia_content_is_prefix
           (Sample.online 100) "u" State.initial
           (Response.mk 200 "OK" "u" "<html>") "Alan Turing"
           ("Alan" ++ Py.LF ++ "Turing")%string); reflexivity.
Defined.

(* ================================================================== *)
(** * What a create stores *)
(* ================================================================== *)

(** The whole outcome of [POST /generate] for a page that is scraped, a
    url that is new and an engine that runs the two statements. *)
Lemma POST_generate_ok (w : Env.t) (data : QuizCreate.t) (s : State.t)
      (title content : string) :
  fst (scrape_wikipedia w (QuizCreate.url data) s) = Ok (title, content) ->
  Env.db_fault w INSERT_quiz = None ->
  Env.db_fault w SELECT_refresh = None ->
  ~ In (QuizCreate.url data) (map Quiz.url (State.quizzes s)) ->
  exists q1 q2 t1 t2 t3 s1,
    POST_generate w data s =
      (Ok (QuizResponse.mk (next_rowid (State.quizzes s)) (QuizCreate.url data)
                           title [q1; q2] [t1; t2; t3]), s1) /\
    State.quizzes s1 =
      State.quizzes s ++
        [Quiz.mk (next_rowid (State.quizzes s)) (QuizCreate.url data) title
                 (Py.slice_to 400 content)
                 (Py.Dict
                    [("questions",
                       fst (generate_quiz_with_gemini title content));
                     ("related_topics",
                       snd (generate_quiz_with_gemini title content))])
                 (Env.now w)].
Proof.
  intros Hscrape Hins Hsel Hnew. apply url_taken_false in Hnew.
  assert (Hscrape' : scrape_wikipedia w (QuizCreate.url data)
                                      (snd (SessionLocal s))
                     = (Ok (title, content), snd (SessionLocal s))).
  { rewrite (scrape_wikipedia_pure w _ _ s), Hscrape. reflexivity. }
  pose proof (generate_quiz_body_ok w data (State.next_session s)
                (snd (SessionLocal s)) title content Hscrape' Hins Hsel Hnew)
    as Hbody.
  destruct (generated_validates (next_rowid (State.quizzes s))
              (QuizCreate.url data) title title content)
    as (q1 & q2 & t1 & t2 & t3 & Hvalid).
  exists q1, q2, t1, t2, t3.
  unfold POST_generate, bind. rewrite generate_quiz_unfold. cbv zeta.
  rewrite Hbody. unfold response_model. cbn [SessionLocal snd State.quizzes].
  rewrite Hvalid. cbn [ret].
  eexists. split; reflexivity.
Qed.

(** X4. A successful create stores one new row, after the rows that were
    there: its [url] is the requested url, its [title] the text of the
    page's [h1], its [content_excerpt] the first 400 characters of the
    joined paragraph text, its [created_at] the database time, and the
    response carries the same id, url and title. *)
Theorem generate_stores_the_scraped_page :
  forall (w : Env.t) (data : QuizCreate.t) (s : State.t)
         (page : Response.t) (heading : string),
    Env.storage_ok w ->
    ~ In (QuizCreate.url data) (map Quiz.url (State.quizzes s)) ->
    Env.requests_get w (QuizCreate.url data) = Ok page ->
    Response.raise_for_status page = Ok tt ->
    Soup.find_h1 (Env.BeautifulSoup w (Response.text page)) = Some heading ->
    exists resp s1 row,
      POST_generate w data s = (Ok resp, s1) /\
      State.quizzes s1 = State.quizzes s ++ [row] /\
      Quiz.url row = QuizCreate.url data /\
      Quiz.title row = heading /\
      Quiz.content_excerpt row =
        Py.slice_to 400
          (Py.join Py.LF
             (Soup.select_paragraphs
                (Env.BeautifulSoup w (Response.text page)))) /\
      Quiz.created_at row = Env.now w /\
      QuizResponse.id resp = Quiz.id row /\
      QuizResponse.url resp = QuizCreate.url data /\
      QuizResponse.title resp = heading.
Proof.
  intros w data s page heading Hstorage Hnew Hget Hstatus Hh1.
  assert (Hscrape : fst (scrape_wikipedia w (QuizCreate.url data) s) =
                    Ok (heading,
                        Py.slice_to 8000
                          (Py.join Py.LF
                             (Soup.select_paragraphs
                                (Env.BeautifulSoup w (Response.text page)))))).
  { rewrite (scrape_wikipedia_ok w _ s page heading Hget Hstatus Hh1).
    reflexivity. }
  destruct (POST_generate_ok w data s _ _ Hscrape (proj1 Hstorage)
              (proj2 Hstorage) Hnew)
    as (q1 & q2 & t1 & t2 & t3 & s1 & Hpost & Hrows).
  do 3 eexists. split; [exact Hpost |]. split; [exact Hrows |].
  cbn. repeat split; try reflexivity.
  apply slice_to_slice_to. lia.
Qed.

Lemma generate_stores_the_scraped_page_witness :
  Env.storage_ok (Sample.online 100) /\
  ~ In (QuizCreate.url Sample.turing)
       (map Quiz.url (State.quizzes State.initial)) /\
  exists resp s1 row,
    POST_generate (Sample.online 100) Sample.turing State.initial =
      (Ok resp, s1) /\
    State.quizzes s1 = State.quizzes State.initial ++ [row] /\
    Quiz.url row = QuizCreate.url Sample.turing /\
    Quiz.title row = "Alan Turing"%string /\
    Quiz.content_excerpt row =
      Py.slice_to 400 (Py.join Py.LF ["Alan"; "Turing"]%string) /\
    Quiz.created_at row = 100 /\
    QuizResponse.id resp = Quiz.id row /\
    QuizResponse.url resp = QuizCreate.url Sample.turing /\
    QuizResponse.title resp = "Alan Turing"%string.
Proof.
  split; [split; reflexivity |].
  split; [intros [] |].
  apply (generate_stores_the_scraped_page
           (Sample.online 100) Sample.turing State.initial
           (Response.mk 200 "OK" (QuizCreate.url Sample.turing) "<html>")
           "Alan Turing").
  - split; reflexivity.
  - intros [].
  - reflexivity.
  - reflexivity.
  - reflexivity.
Defined.

(** X5. A page with an [h1] and no paragraph under [div.mw-parser-output]
    is not an error: the scraper returns the empty content and the create
    stores a quiz whose excerpt is empty. *)
Theorem generate_accepts_page_without_paragraphs :
  forall (w : Env.t) (data : QuizCreate.t) (s : State.t)
         (page : Response.t) (heading : string),
    Env.storage_ok w ->
    ~ In (QuizCreate.url data) (map Quiz.url (State.quizzes s)) ->
    Env.requests_get w (QuizCreate.url data) = Ok page ->
    Response.raise_for_status page = Ok tt ->
    Soup.find_h1 (Env.BeautifulSoup w (Response.text page)) = Some heading ->
    Soup.select_paragraphs (Env.BeautifulSoup w (Response.text page)) = [] ->
    fst (scrape_wikipedia w (QuizCreate.url data) s) =
      Ok (heading, EmptyString) /\
    exists resp s1 row,
      POST_generate w data s = (Ok resp, s1) /\
      State.quizzes s1 = State.quizzes s ++ [row] /\
      Quiz.url row = QuizCreate.url data /\
      Quiz.content_excerpt row = EmptyString.
Proof.
  intros w data s page heading Hstorage Hnew Hget Hstatus Hh1 Hempty.
  assert (Hscrape : fst (scrape_wikipedia w (QuizCreate.url data) s) =
                    Ok (heading, EmptyString)).
  { rewrite (scrape_wikipedia_ok w _ s page heading Hget Hstatus Hh1).
    rewrite Hempty. reflexivity. }
  split; [exact Hscrape |].
  destruct (POST_generate_ok w data s _ _ Hscrape (proj1 Hstorage)
              (proj2 Hstorage) Hnew)
    as (q1 & q2 & t1 & t2 & t3 & s1 & Hpost & Hrows).
  do 3 eexists. split; [exact Hpost |]. split; [exact Hrows |].
  split; reflexivity.
Qed.

Lemma generate_accepts_page_without_paragraphs_witness :
  Env.storage_ok Scenario.no_paragraphs /\
  ~ In (QuizCreate.url Sample.lovelace)
       (map Quiz.url (State.quizzes Sample.one_quiz)) /\
  Soup.select_paragraphs (Env.BeautifulSoup Scenario.no_paragraphs "<html>")
    = [] /\
  fst (scrape_wikipedia Scenario.no_paragraphs (QuizCreate.url Sample.lovelace)
                        Sample.one_quiz) = Ok ("Stub"%string, EmptyString) /\
  exists resp s1 row,
    POST_generate Scenario.no_paragraphs Sample.lovelace Sample.one_quiz =
      (Ok resp, s1) /\
    State.quizzes s1 = State.quizzes Sample.one_quiz ++ [row] /\
    Quiz.url row = QuizCreate.url Sample.lovelace /\
    Quiz.content_excerpt row = EmptyString.
Proof.
  split; [split; reflexivity |].
  split; [cbn; intros [H | []]; discriminate |].
  split; [reflexivity |].
  apply (generate_accepts_page_without_paragraphs
           Scenario.no_paragraphs Sample.lovelace Sample.one_quiz
           (Response.mk 200 "OK" (QuizCreate.url Sample.lovelace) "<html>")
           "Stub").
  - split; reflexivity.
  - cbn. intros [H | []]. discriminate.
  - reflexivity.
  - reflexivity.
  - reflexivity.
  - reflexivity.
Defined.

(* ================================================================== *)
(** * Failed and successful creates *)
(* ================================================================== *)

(** Everything that must have happened when the body of [generate_quiz]
    returns. *)
Lemma generate_quiz_body_returns_full (w : Env.t) (data : QuizCreate.t)
      (db : Session) (s s1 : State.t) (p : Payload.t) :
  generate_quiz_body w data db s = (Ok p, s1) ->
  exists title content,
    scrape_wikipedia w (QuizCreate.url data) s = (Ok (title, content), s) /\
    Env.db_fault w INSERT_quiz = None /\
    Env.db_fault w SELECT_refresh = None /\
    url_taken (QuizCreate.url data) (State.quizzes s) = false /\
    p = Payload.mk (next_rowid (State.quizzes s)) (QuizCreate.url data) title
                   (fst (generate_quiz_with_gemini title content))
                   (snd (generate_quiz_with_gemini title content)).
Proof.
  intros Hbody.
  destruct (scrape_wikipedia w (QuizCreate.url data) s)
    as [[[t c] | e] s0] eqn:Hscrape.
  - pose proof Hscrape as Hstate.
    apply scrape_wikipedia_returns in Hstate as [-> _].
    destruct (Env.db_fault w INSERT_quiz) as [e |] eqn:Hins.
    { rewrite (body_insert_refused w data db s t c e Hscrape Hins) in Hbody.
      discriminate. }
    destruct (url_taken (QuizCreate.url data) (State.quizzes s)) eqn:Hnew.
    { destruct (generate_quiz_body_taken w data db s Hnew) as (e & He & _).
      rewrite He in Hbody. discriminate. }
    destruct (Env.db_fault w SELECT_refresh) as [e |] eqn:Hsel.
    { revert Hbody.
      unfold generate_quiz_body, db_commit, db_refresh, db_add. run_monad.
      rewrite Hscrape, Hins.
      rewrite (surjective_pairing (generate_quiz_with_gemini t c)).
      cbn. rewrite Hnew, Hsel. cbn. discriminate. }
    rewrite (generate_quiz_body_ok w data db s t c Hscrape Hins Hsel Hnew)
      in Hbody.
    inversion Hbody; subst. exists t, c. auto.
  - revert Hbody. unfold generate_quiz_body. run_monad.
    rewrite Hscrape. discriminate.
Qed.

(** When the body raises and the engine would have run the refresh, the
    table is as it was. *)
Lemma generate_quiz_body_raises_unchanged (w : Env.t) (data : QuizCreate.t)
      (db : Session) (s s1 : State.t) (e : exn) :
  generate_quiz_body w data db s = (Raise e, s1) ->
  Env.db_fault w SELECT_refresh = None ->
  s1 = s.
Proof.
  intros Hbody Hsel.
  destruct (scrape_wikipedia w (QuizCreate.url data) s)
    as [[[t c] | x] s0] eqn:Hscrape.
  - pose proof Hscrape as Hstate.
    apply scrape_wikipedia_returns in Hstate as [-> _].
    destruct (Env.db_fault w INSERT_quiz) as [x |] eqn:Hins.
    { rewrite (body_insert_refused w data db s t c x Hscrape Hins) in Hbody.
      inversion Hbody. reflexivity. }
    destruct (url_taken (QuizCreate.url data) (State.quizzes s)) eqn:Hnew.
    { destruct (generate_quiz_body_taken w data db s Hnew) as (x & Hx & _).
      rewrite Hx in Hbody. inversion Hbody. reflexivity. }
    rewrite (generate_quiz_body_ok w data db s t c Hscrape Hins Hsel Hnew)
      in Hbody.
    discriminate.
  - pose proof Hscrape as Hstate.
    apply scrape_wikipedia_raises in Hstate as [-> _].
    revert Hbody. unfold generate_quiz_body. run_monad.
    rewrite Hscrape. intros H. inversion H. reflexivity.
Qed.

(** When the engine runs the INSERT and refuses the refresh, the body
    raises after the row is in the table. *)
Lemma generate_quiz_body_refresh_refused (w : Env.t) (data : QuizCreate.t)
      (db : Session) (s : State.t) (title content : string) (cause : exn) :
  scrape_wikipedia w (QuizCreate.url data) s = (Ok (title, content), s) ->
  Env.db_fault w INSERT_quiz = None ->
  Env.db_fault w SELECT_refresh = Some cause ->
  url_taken (QuizCreate.url data) (State.quizzes s) = false ->
  generate_quiz_body w data db s =
    (Raise cause,
     State.with_quizzes s
       (State.quizzes s ++
          [Quiz.mk (next_rowid (State.quizzes s)) (QuizCreate.url data) title
                   (Py.slice_to 400 content)
                   (Py.Dict
                      [("questions",
                         fst (generate_quiz_with_gemini title content));
                       ("related_topics",
                         snd (generate_quiz_with_gemini title content))])
                   (Env.now w)])).
Proof.
  intros Hscrape Hins Hsel Hnew.
  unfold generate_quiz_body, db_commit, db_refresh, db_add. run_monad.
  rewrite Hscrape, Hins.
  rewrite (surjective_pairing (generate_quiz_with_gemini title content)).
  cbn. rewrite Hnew, Hsel. reflexivity.
Qed.

(** X6. A [POST /generate] that fails has stored nothing, as long as the
    engine would run the refresh that follows the commit. *)
Theorem failed_generate_stores_nothing :
  forall (w : Env.t) (data : QuizCreate.t) (s s' : State.t) (x : exn),
    POST_generate w data s = (Raise x, s') ->
    Env.db_fault w SELECT_refresh = None ->
    State.quizzes s' = State.quizzes s.
Proof.
  intros w data s s' x Hpost Hsel. revert Hpost.
  unfold POST_generate, bind. rewrite generate_quiz_unfold. cbv zeta.
  destruct (generate_quiz_body _ _ _ _) as [[p | e] s1] eqn:Hbody.
  - apply generate_quiz_body_returns_full in Hbody
      as (t & c & _ & _ & _ & _ & ->).
    destruct (generated_validates (next_rowid (State.quizzes (snd (SessionLocal s))))
                (QuizCreate.url data) t t c)
      as (q1 & q2 & t1 & t2 & t3 & Hvalid).
    unfold response_model. rewrite Hvalid. cbn. discriminate.
  - apply generate_quiz_body_raises_unchanged in Hbody; [| exact Hsel].
    subst s1. intros H. inversion H. reflexivity.
Qed.

Lemma failed_generate_stores_nothing_witness :
  POST_generate (Sample.online 200) Sample.turing Sample.one_quiz =
    (Raise (HTTPException 500 Sample.integrity_text),
     snd (POST_generate (Sample.online 200) Sample.turing Sample.one_quiz)) /\
  Env.db_fault (Sample.online 200) SELECT_refresh = None /\
  State.quizzes
    (snd (POST_generate (Sample.online 200) Sample.turing Sample.one_quiz)) =
  State.quizzes Sample.one_quiz.
Proof.
  split; [reflexivity |]. split; [reflexivity |].
  apply (failed_generate_stores_nothing
           (Sample.online 200) Sample.turing Sample.one_quiz _
           (HTTPException 500 Sample.integrity_text));
    reflexivity.
Defined.

(** X7. When the commit goes through and the refresh after it is refused,
    [POST /generate] answers HTTP 500 although the quiz is stored; the
    same request sent again, in whatever environment, fails and stores
    nothing. *)
Theorem refresh_failure_keeps_the_row :
  forall (w : Env.t) (data : QuizCreate.t) (s : State.t)
         (title content : string) (cause : exn),
    fst (scrape_wikipedia w (QuizCreate.url data) s) = Ok (title, content) ->
    Env.db_fault w INSERT_quiz = None ->
    Env.db_fault w SELECT_refresh = Some cause ->
    ~ In (QuizCreate.url data) (map Quiz.url (State.quizzes s)) ->
    exists s1 row,
      POST_generate w data s = (Raise (HTTPException 500 (str cause)), s1) /\
      State.quizzes s1 = State.quizzes s ++ [row] /\
      Quiz.url row = QuizCreate.url data /\
      forall w2, exists detail s2,
          POST_generate w2 data s1 = (Raise (HTTPException 500 detail), s2) /\
          State.quizzes s2 = State.quizzes s1.
Proof.
  intros w data s title content cause Hscrape Hins Hsel Hnew.
  apply url_taken_false in Hnew.
  assert (Hpost :
            POST_generate w data s =
              (Raise (HTTPException 500 (str cause)),
               snd (db_close (State.next_session s)
                      (State.with_quizzes (snd (SessionLocal s))
                         (State.quizzes s ++
                            [Quiz.mk (next_rowid (State.quizzes s))
                                     (QuizCreate.url data) title
                                     (Py.slice_to 400 content)
                                     (Py.Dict
                                        [("questions",
                                           fst (generate_quiz_with_gemini
                                                  title content));
                                         ("related_topics",
                                           snd (generate_quiz_with_gemini
                                                  title content))])
                                     (Env.now w)]))))).
  { assert (Hscrape' : scrape_wikipedia w (QuizCreate.url data)
                                        (snd (SessionLocal s))
                       = (Ok (title, content), snd (SessionLocal s))).
    { rewrite (scrape_wikipedia_pure w _ _ s), Hscrape. reflexivity. }
    unfold POST_generate, bind. rewrite generate_quiz_unfold. cbv zeta.
    rewrite (generate_quiz_body_refresh_refused w data (State.next_session s)
               (snd (SessionLocal s)) title content cause
               Hscrape' Hins Hsel Hnew).
    reflexivity. }
  do 2 eexists. split; [exact Hpost |].
  split; [reflexivity |]. split; [reflexivity |].
  intros w2.
  match goal with
  | |- context [POST_generate w2 data ?st] => set (s1 := st)
  end.
  assert (Htaken : url_taken (QuizCreate.url data)
                             (State.quizzes (snd (SessionLocal s1))) = true).
  { apply url_taken_true. cbn. rewrite map_app. apply in_or_app.
    right. left. reflexivity. }
  destruct (generate_quiz_body_taken w2 data (State.next_session s1)
              (snd (SessionLocal s1)) Htaken) as (e & Hbody & _).
  unfold POST_generate, bind. rewrite generate_quiz_unfold. cbv zeta.
  rewrite Hbody. do 2 eexists. split; reflexivity.
Qed.

Lemma refresh_failure_keeps_the_row_witness :
  fst (scrape_wikipedia Scenario.refresh_fails (QuizCreate.url Sample.turing)
                        State.initial) =
    Ok ("Alan Turing"%string, ("Alan" ++ Py.LF ++ "Turing")%string) /\
  Env.db_fault Scenario.refresh_fails INSERT_quiz = None /\
  Env.db_fault Scenario.refresh_fails SELECT_refresh =
    Some (LibraryError "OperationalError" "server closed the connection") /\
  ~ In (QuizCreate.url Sample.turing)
       (map Quiz.url (State.quizzes State.initial)) /\
  exists s1 row,
    POST_generate Scenario.refresh_fails Sample.turing State.initial =
      (Raise (HTTPException 500 "server closed the connection"), s1) /\
    State.quizzes s1 = State.quizzes State.initial ++ [row] /\
    Quiz.url row = QuizCreate.url Sample.turing /\
    forall w2, exists detail s2,
        POST_generate w2 Sample.turing s1 =
          (Raise (HTTPException 500 detail), s2) /\
        State.quizzes s2 = State.quizzes s1.
Proof.
  split; [reflexivity |]. split; [reflexivity |]. split; [reflexivity |].
  split; [intros [] |].
  apply (refresh_failure_keeps_the_row
           Scenario.refresh_fails Sample.turing State.initial
           "Alan Turing" ("Alan" ++ Py.LF ++ "Turing")%string
           (LibraryError "OperationalError" "server closed the connection")).
  - reflexivity.
  - reflexivity.
  - reflexivity.
  - intros [].
Defined.

(** X8. When the scraper fails, [POST /generate] answers HTTP 500 with the
    scraper's message and the table is as it was, whether the url is stored
    or not and whatever the storage engine would have done: no statement is
    sent after a failed scrape. *)
Theorem scrape_failure_stops_the_create :
  forall (w : Env.t) (data : QuizCreate.t) (s : State.t) (e : exn),
    fst (scrape_wikipedia w (QuizCreate.url data) s) = Raise e ->
    exists s',
      POST_generate w data s = (Raise (HTTPException 500 (str e)), s') /\
      State.quizzes s' = State.quizzes s /\
      forall w2,
        Env.requests_get w2 = Env.requests_get w ->
        Env.BeautifulSoup w2 = Env.BeautifulSoup w ->
        fst (POST_generate w2 data s) = Raise (HTTPException 500 (str e)).
Proof.
  intros w data s e Hscrape.
  assert (Hgen : forall w2,
             Env.requests_get w2 = Env.requests_get w ->
             Env.BeautifulSoup w2 = Env.BeautifulSoup w ->
             POST_generate w2 data s =
               (Raise (HTTPException 500 (str e)),
                snd (db_close (State.next_session s) (snd (SessionLocal s))))).
  { intros w2 Hget Hsoup.
    assert (Hscrape2 : scrape_wikipedia w2 (QuizCreate.url data)
                                        (snd (SessionLocal s))
                       = (Raise e, snd (SessionLocal s))).
    { rewrite (scrape_wikipedia_pure w2 _ _ s). rewrite <- Hscrape.
      unfold scrape_wikipedia. rewrite Hget, Hsoup. reflexivity. }
    unfold POST_generate, bind. rewrite generate_quiz_unfold. cbv zeta.
    unfold generate_quiz_body. run_monad. rewrite Hscrape2. reflexivity. }
  eexists. split; [apply (Hgen w); reflexivity |].
  split; [reflexivity |].
  intros w2 Hget Hsoup. rewrite (Hgen w2 Hget Hsoup). reflexivity.
Qed.

Lemma scrape_failure_stops_the_create_witness :
  fst (scrape_wikipedia Sample.not_found (QuizCreate.url Sample.turing)
                        Sample.one_quiz) =
    Raise (Exception
             "Error scraping Wikipedia: 404 Client Error: Not Found for url: https://en.wikipedia.org/wiki/Alan_Turing") /\
  exists s',
    POST_generate Sample.not_found Sample.turing Sample.one_quiz =
      (Raise (HTTPException 500
                "Error scraping Wikipedia: 404 Client Error: Not Found for url: https://en.wikipedia.org/wiki/Alan_Turing"),
       s') /\
    State.quizzes s' = State.quizzes Sample.one_quiz /\
    forall w2,
      Env.requests_get w2 = Env.requests_get Sample.not_found ->
      Env.BeautifulSoup w2 = Env.BeautifulSoup Sample.not_found ->
      fst (POST_generate w2 Sample.turing Sample.one_quiz) =
        Raise (HTTPException 500
                 "Error scraping Wikipedia: 404 Client Error: Not Found for url: https://en.wikipedia.org/wiki/Alan_Turing").
Proof.
  split; [reflexivity |].
  apply (scrape_failure_stops_the_create
           Sample.not_found Sample.turing Sample.one_quiz
           (Exception
              "Error scraping Wikipedia: 404 Client Error: Not Found for url: https://en.wikipedia.org/wiki/Alan_Turing")).
  reflexivity.
Defined.

(** X9. [POST /generate] returns a response only if the url was not
    stored, the page was answered with a good status and an [h1], and the
    engine ran both statements; the response then carries the requested
    url, the text of the [h1] as title, two questions and three topics,
    and, in a state reached from an empty table, an id larger than the id
    of every quiz stored before. *)
Theorem generate_returns_only_if :
  forall (w : Env.t) (data : QuizCreate.t) (s s1 : State.t)
         (resp : QuizResponse.t),
    reachable s ->
    POST_generate w data s = (Ok resp, s1) ->
    ~ In (QuizCreate.url data) (map Quiz.url (State.quizzes s)) /\
    Env.db_fault w INSERT_quiz = None /\
    Env.db_fault w SELECT_refresh = None /\
    (exists page,
        Env.requests_get w (QuizCreate.url data) = Ok page /\
        Response.raise_for_status page = Ok tt /\
        Soup.find_h1 (Env.BeautifulSoup w (Response.text page)) =
          Some (QuizResponse.title resp)) /\
    QuizResponse.url resp = QuizCreate.url data /\
    length (QuizResponse.quiz_data resp) = 2%nat /\
    length (QuizResponse.related_topics resp) = 3%nat /\
    Forall (fun q => Quiz.id q < QuizResponse.id resp) (State.quizzes s).
Proof.
  intros w data s s1 resp _. unfold POST_generate, bind.
  rewrite generate_quiz_unfold. cbv zeta.
  destruct (generate_quiz_body _ _ _ _) as [[p | e] s0] eqn:Hbody;
    [| discriminate].
  apply generate_quiz_body_returns_full in Hbody
    as (t & c & Hscrape & Hins & Hsel & Hnew & ->).
  destruct (generated_validates
              (next_rowid (State.quizzes (snd (SessionLocal s))))
              (QuizCreate.url data) t t c)
    as (q1 & q2 & t1 & t2 & t3 & Hvalid).
  unfold response_model. rewrite Hvalid. cbn [ret]. intros H.
  inversion H; subst. cbn.
  split; [apply url_taken_false; exact Hnew |].
  split; [exact Hins |]. split; [exact Hsel |].
  split.
  { assert (Hfst : fst (scrape_wikipedia w (QuizCreate.url data)
                                         (snd (SessionLocal s)))
                   = Ok (t, c)) by (rewrite Hscrape; reflexivity).
    apply scrape_wikipedia_returned_page in Hfst
      as (page & Hget & Hstatus & Hh1 & _).
    exists page. auto. }
  repeat split.
  apply Forall_forall. intros q Hq. apply id_lt_next_rowid. exact Hq.
Qed.

Lemma generate_returns_only_if_witness :
  reachable Sample.one_quiz /\
  POST_generate (Sample.online 200) Sample.lovelace Sample.one_quiz =
    (Ok Scenario.lovelace_response, Scenario.two_quizzes) /\
  ~ In (QuizCreate.url Sample.lovelace)
       (map Quiz.url (State.quizzes Sample.one_quiz)) /\
  Env.db_fault (Sample.online 200) INSERT_quiz = None /\
  Env.db_fault (Sample.online 200) SELECT_refresh = None /\
  (exists page,
      Env.requests_get (Sample.online 200) (QuizCreate.url Sample.lovelace)
        = Ok page /\
      Response.raise_for_status page = Ok tt /\
      Soup.find_h1 (Env.BeautifulSoup (Sample.online 200) (Response.text page))
        = Some (QuizResponse.title Scenario.lovelace_response)) /\
  QuizResponse.url Scenario.lovelace_response = QuizCreate.url Sample.lovelace /\
  length (QuizResponse.quiz_data Scenario.lovelace_response) = 2%nat /\
  length (QuizResponse.related_topics Scenario.lovelace_response) = 3%nat /\
  Forall (fun q => Quiz.id q < QuizResponse.id Scenario.lovelace_response)
         (State.quizzes Sample.one_quiz).
Proof.
  split; [exact one_quiz_reachable |]. split; [reflexivity |].
  apply (generate_returns_only_if
           (Sample.online 200) Sample.lovelace Sample.one_quiz
           Scenario.two_quizzes Scenario.lovelace_response
           one_quiz_reachable).
  reflexivity.
Defined.

(* ================================================================== *)
(** * The table over time *)
(* ================================================================== *)

(** X10. No request updates or deletes a stored quiz: a row stays at its
    position, unchanged, through every sequence of requests. *)
Theorem stored_rows_are_never_changed :
  forall (rs : list request) (s : State.t) (i : nat) (q : Quiz.t),
    nth_error (State.quizzes s) i = Some q ->
    nth_error (State.quizzes (serve_all rs s)) i = Some q.
Proof.
  intros rs s i q Hq.
  destruct (serve_all_quizzes rs s) as [extra ->].
  rewrite nth_error_app1; [exact Hq |].
  apply nth_error_Some. rewrite Hq. discriminate.
Qed.

Lemma stored_rows_are_never_changed_witness :
  exists q,
    nth_error (State.quizzes Sample.one_quiz) 0 = Some q /\
    nth_error
      (State.quizzes
         (serve_all [Generate (Sample.online 200) Sample.lovelace;
                     GetOne Sample.locked 1;
                     Generate Scenario.refresh_fails Sample.turing]
                    Sample.one_quiz)) 0 = Some q.
Proof.
  eexists. split; [reflexivity |].
  apply (stored_rows_are_never_changed
           [Generate (Sample.online 200) Sample.lovelace;
            GetOne Sample.locked 1;
            Generate Scenario.refresh_fails Sample.turing]
           Sample.one_quiz 0).
  reflexivity.
Defined.

(** X11. [GET /quizzes] and [GET /quizzes/{id}] never write: on every
    outcome (a response, the 404, an exception of the engine or of the
    validation) the table is as it was. *)
Theorem reads_leave_the_table_alone :
  forall (w : Env.t) (quiz_id : Z) (s : State.t),
    State.quizzes (snd (GET_quizzes w s)) = State.quizzes s /\
    State.quizzes (snd (GET_quiz w quiz_id s)) = State.quizzes s.
Proof.
  intros w quiz_id s. split.
  - apply list_quizzes_quizzes.
  - unfold GET_quiz. rewrite bind_response_model_state.
    apply get_quiz_quizzes.
Qed.

Lemma StronglySorted_snoc {A} (R : A -> A -> Prop) (l : list A) (x : A) :
  StronglySorted R l -> Forall (fun y => R y x) l ->
  StronglySorted R (l ++ [x]).
Proof.
  induction 1 as [| y rest Hrest IH Hy]; intros Hall; cbn.
  - constructor; constructor.
  - inversion Hall; subst. constructor.
    + apply IH. assumption.
    + apply Forall_app. split; [assumption |]. constructor; [assumption |].
      constructor.
Qed.

Lemma next_rowid_positive (rows : list Quiz.t) :
  Forall (fun q => 1 <= Quiz.id q) rows -> 1 <= next_rowid rows.
Proof.
  unfold next_rowid. intros Hpos.
  destruct rows as [| x rest]; cbn [map].
  - lia.
  - inversion Hpos; subst.
    pose proof (fold_max_ge_init (Quiz.id x) (map Quiz.id rest)). lia.
Qed.

(** X12. In every state the server reaches from an empty table, the ids
    of the stored quizzes are positive and strictly increasing in the
    order of insertion; in particular no two quizzes share an id. *)
Theorem ids_increase :
  forall (s : State.t),
    reachable s ->
    StronglySorted Z.lt (map Quiz.id (State.quizzes s)) /\
    Forall (fun q => 1 <= Quiz.id q) (State.quizzes s) /\
    NoDup (map Quiz.id (State.quizzes s)).
Proof.
  intros s Hreach.
  assert (H : StronglySorted Z.lt (map Quiz.id (State.quizzes s)) /\
              Forall (fun q => 1 <= Quiz.id q) (State.quizzes s)).
  { apply (reachable_ind
             (fun rows => StronglySorted Z.lt (map Quiz.id rows) /\
                          Forall (fun q => 1 <= Quiz.id q) rows));
      [split; constructor | | exact Hreach].
    intros rows row [Hsorted Hpos] Hid _ _. split.
    - rewrite map_app. cbn. apply StronglySorted_snoc; [exact Hsorted |].
      apply Forall_map. apply Forall_forall. intros q Hq.
      rewrite Hid. apply id_lt_next_rowid. exact Hq.
    - apply Forall_app. split; [exact Hpos |]. constructor; [| constructor].
      rewrite Hid. apply next_rowid_positive. exact Hpos. }
  destruct H as [Hsorted Hpos]. repeat split; try assumption.
  clear Hpos. induction Hsorted as [| x rest Hrest IH Hx]; constructor.
  - intros Hin. rewrite Forall_forall in Hx. specialize (Hx x Hin). lia.
  - exact IH.
Qed.

Lemma two_quizzes_reachable : reachable Scenario.two_quizzes.
Proof.
  exists [Generate (Sample.online 100) Sample.turing;
          Generate (Sample.online 200) Sample.lovelace].
  reflexivity.
Defined.

Lemma ids_increase_witness :
  reachable Scenario.two_quizzes /\
  map Quiz.id (State.quizzes Scenario.two_quizzes) = [1; 2] /\
  StronglySorted Z.lt (map Quiz.id (State.quizzes Scenario.two_quizzes)) /\
  Forall (fun q => 1 <= Quiz.id q) (State.quizzes Scenario.two_quizzes) /\
  NoDup (map Quiz.id (State.quizzes Scenario.two_quizzes)).
Proof.
  split; [exact two_quizzes_reachable |]. split; [reflexivity |].
  exact (ids_increase Scenario.two_quizzes two_quizzes_reachable).
Defined.

(* ================================================================== *)
(** * Sessions over time *)
(* ================================================================== *)

(** What a request does to the sessions: it takes the next number, and
    afterwards its session is closed or it is one more open session. *)
Lemma serve_sessions (r : request) (s : State.t) :
  State.next_session (serve r s) = S (State.next_session s) /\
  (State.live_sessions (serve r s) =
     filter (fun x => negb (Nat.eqb x (State.next_session s)))
            (State.live_sessions s) \/
   State.live_sessions (serve r s) =
     State.next_session s :: State.live_sessions s).
Proof.
  destruct r as [w data | w | w quiz_id]; cbn [serve].
  - unfold POST_generate. rewrite bind_response_model_state.
    rewrite generate_quiz_unfold. cbv zeta.
    destruct (generate_quiz_body _ _ _ _) as [r s1] eqn:Hbody.
    apply generate_quiz_body_state in Hbody as (Hlive & Hnext & _).
    assert (Hclose : State.next_session
                       (snd (db_close (State.next_session s) s1)) =
                     S (State.next_session s) /\
                     State.live_sessions
                       (snd (db_close (State.next_session s) s1)) =
                     filter (fun x => negb (Nat.eqb x (State.next_session s)))
                            (State.live_sessions s)).
    { cbn. rewrite Hlive, Hnext. cbn. rewrite Nat.eqb_refl. auto. }
    destruct r; cbn [snd]; destruct Hclose; auto.
  - unfold GET_quizzes, list_quizzes, query_all_newest_first. run_monad.
    destruct (Env.db_fault w SELECT_all); cbn; [auto |].
    rewrite Nat.eqb_refl. auto.
  - unfold GET_quiz. rewrite bind_response_model_state.
    unfold get_quiz, query_first_by_id, json_get. run_monad.
    destruct (Env.db_fault w (SELECT_by_id quiz_id)); cbn; [auto |].
    rewrite Nat.eqb_refl.
    destruct (find _ _) as [quiz |]; cbn; [| auto].
    destruct (Py.get (Quiz.quiz_data quiz) "questions" _); cbn; [| auto].
    destruct (Py.get (Quiz.quiz_data quiz) "related_topics" _); cbn; auto.
Qed.

Lemma filter_keeps_all {A} (f : A -> bool) (l : list A) :
  Forall (fun x => f x = true) l -> filter f l = l.
Proof.
  induction 1 as [| x rest Hx _ IH]; cbn.
  - reflexivity.
  - rewrite Hx, IH. reflexivity.
Qed.

(** The numbering of sessions after a sequence of requests. *)
Lemma session_numbers_are_fresh_aux (rs : list request) :
  State.next_session (serve_all rs State.initial) = length rs /\
  Forall (fun x => (x < length rs)%nat)
         (State.live_sessions (serve_all rs State.initial)).
Proof.
  induction rs as [| r rest IH] using rev_ind.
  - cbn. split; constructor.
  - rewrite serve_all_snoc, length_app. cbn [length].
    destruct IH as (Hnext & Hbelow).
    destruct (serve_sessions r (serve_all rest State.initial))
      as [Hnext' Hlive].
    rewrite Hnext', Hnext. split; [lia |].
    rewrite Hnext in Hlive.
    destruct Hlive as [-> | ->].
    + apply Forall_forall. intros x Hx. apply filter_In in Hx as [Hx _].
      rewrite Forall_forall in Hbelow. specialize (Hbelow x Hx). lia.
    + constructor; [lia |].
      apply Forall_impl with (2 := Hbelow). intros; lia.
Qed.

(** X13. Session numbers are never reused: after [n] requests on a new
    server the next session number is [n], every open session has a
    smaller number, and no number is open twice. *)
Theorem session_numbers_are_fresh :
  forall (rs : list request),
    State.next_session (serve_all rs State.initial) = length rs /\
    Forall (fun x => (x < length rs)%nat)
           (State.live_sessions (serve_all rs State.initial)) /\
    NoDup (State.live_sessions (serve_all rs State.initial)).
Proof.
  induction rs as [| r rest IH] using rev_ind.
  - cbn. repeat split; constructor.
  - rewrite serve_all_snoc, length_app. cbn [length].
    destruct IH as (Hnext & Hbelow & Hnodup).
    destruct (serve_sessions r (serve_all rest State.initial))
      as [Hnext' Hlive].
    rewrite Hnext', Hnext. split; [lia |].
    rewrite Hnext in Hlive.
    destruct Hlive as [-> | ->].
    + split.
      * apply Forall_forall. intros x Hx. apply filter_In in Hx as [Hx _].
        rewrite Forall_forall in Hbelow. specialize (Hbelow x Hx). lia.
      * apply NoDup_filter. exact Hnodup.
    + split.
      * constructor; [lia |].
        apply Forall_impl with (2 := Hbelow). intros; lia.
      * constructor; [| exact Hnodup].
        intros Hin. rewrite Forall_forall in Hbelow.
        specialize (Hbelow _ Hin). lia.
Qed.

(** X14. In a reachable state [POST /generate] leaves open exactly the
    sessions that were open, on every outcome; the two reading handlers do
    so whenever the engine runs their query. *)
Theorem handlers_restore_the_sessions :
  forall (s : State.t) (w : Env.t) (data : QuizCreate.t) (quiz_id : Z),
    reachable s ->
    State.live_sessions (snd (POST_generate w data s)) =
      State.live_sessions s /\
    (Env.db_fault w SELECT_all = None ->
     State.live_sessions (snd (GET_quizzes w s)) = State.live_sessions s) /\
    (Env.db_fault w (SELECT_by_id quiz_id) = None ->
     State.live_sessions (snd (GET_quiz w quiz_id s)) = State.live_sessions s).
Proof.
  intros s w data quiz_id [rs ->].
  destruct (session_numbers_are_fresh_aux rs) as (Hnext & Hbelow).
  set (s := serve_all rs State.initial) in *.
  assert (Hkeep : filter (fun x => negb (Nat.eqb x (State.next_session s)))
                         (State.live_sessions s) = State.live_sessions s).
  { apply filter_keeps_all. apply Forall_impl with (2 := Hbelow).
    intros x Hx. rewrite Hnext. apply negb_true_iff, Nat.eqb_neq. lia. }
  assert (Hclosed : forall r,
             ~ In (State.next_session s) (State.live_sessions (serve r s)) ->
             State.live_sessions (serve r s) = State.live_sessions s).
  { intros r Hnot. destruct (serve_sessions r s) as [_ [H | H]].
    - rewrite H. exact Hkeep.
    - exfalso. apply Hnot. rewrite H. left. reflexivity. }
  split; [| split].
  - apply (Hclosed (Generate w data)). cbn [serve].
    unfold POST_generate. rewrite bind_response_model_state.
    apply generate_quiz_closes_session.
  - intros Hruns. apply (Hclosed (ListAll w)). cbn [serve].
    apply list_quizzes_closes_session. exact Hruns.
  - intros Hruns. apply (Hclosed (GetOne w quiz_id)). cbn [serve].
    unfold GET_quiz. rewrite bind_response_model_state.
    apply get_quiz_closes_session. exact Hruns.
Qed.

Lemma leaked_reachable : reachable Scenario.leaked.
Proof. exists [ListAll Sample.locked]. reflexivity. Defined.

Lemma handlers_restore_the_sessions_witness :
  reachable Scenario.leaked /\
  State.live_sessions Scenario.leaked = [0%nat] /\
  State.live_sessions
    (snd (POST_generate (Sample.online 100) Sample.turing Scenario.leaked)) =
    State.live_sessions Scenario.leaked /\
  (Env.db_fault (Sample.online 100) SELECT_all = None /\
   State.live_sessions (snd (GET_quizzes (Sample.online 100) Scenario.leaked)) =
     State.live_sessions Scenario.leaked) /\
  (Env.db_fault (Sample.online 100) (SELECT_by_id 7) = None /\
   State.live_sessions (snd (GET_quiz (Sample.online 100) 7 Scenario.leaked)) =
     State.live_sessions Scenario.leaked).
Proof.
  split; [exact leaked_reachable |]. split; [reflexivity |].
  pose proof (handlers_restore_the_sessions
                Scenario.leaked (Sample.online 100) Sample.turing 7
                leaked_reachable) as (Hpost & Hlist & Hget).
  split; [exact Hpost |].
  split; (split; [reflexivity |]).
  - apply Hlist. reflexivity.
  - apply Hget. reflexivity.
Defined.

(* ================================================================== *)
(** * Reading back *)
(* ================================================================== *)

Lemma dict_get_missing (entries : list (string * Py.value)) (key : string)
      (default : Py.value) :
  Py.dict_lookup entries key = None ->
  Py.dict_get entries key default = default.
Proof.
  induction entries as [| [k v] rest IH]; cbn; intros H.
  - reflexivity.
  - destruct (String.eqb k key); [discriminate | auto].
Qed.

(** X16. [GET /quizzes/{id}] for a stored quiz whose JSON object has
    neither a "questions" nor a "related_topics" key answers with empty
    [quiz_data] and empty [related_topics] (the defaults of the two
    [.get] calls), not with an error. *)
Theorem get_quiz_defaults_to_empty_lists :
  forall (w : Env.t) (quiz_id : Z) (s : State.t) (quiz : Quiz.t)
         (entries : list (string * Py.value)),
    Env.db_fault w (SELECT_by_id quiz_id) = None ->
    find (fun q => Quiz.id q =? quiz_id) (State.quizzes s) = Some quiz ->
    Quiz.quiz_data quiz = Py.Dict entries ->
    Py.dict_lookup entries "questions" = None ->
    Py.dict_lookup entries "related_topics" = None ->
    fst (GET_quiz w quiz_id s) =
      Ok (QuizResponse.mk (Quiz.id quiz) (Quiz.url quiz) (Quiz.title quiz)
                          [] []).
Proof.
  intros w quiz_id s quiz entries Hruns Hfind Hdata Hq Ht.
  unfold GET_quiz, bind.
  rewrite (get_quiz_found w quiz_id s quiz entries Hruns Hfind Hdata).
  rewrite (dict_get_missing _ _ _ Hq), (dict_get_missing _ _ _ Ht).
  reflexivity.
Qed.

Lemma get_quiz_defaults_to_empty_lists_witness :
  Env.db_fault (Sample.online 100) (SELECT_by_id 5) = None /\
  find (fun q => Quiz.id q =? 5) (State.quizzes Scenario.legacy) =
    Some (Quiz.mk 5 "https://en.wikipedia.org/wiki/Old" "Old" ""
                  (Py.Dict []) 10) /\
  fst (GET_quiz (Sample.online 100) 5 Scenario.legacy) =
    Ok (QuizResponse.mk 5 "https://en.wikipedia.org/wiki/Old" "Old" [] []).
Proof.
  split; [reflexivity |]. split; [reflexivity |].
  apply (get_quiz_defaults_to_empty_lists
           (Sample.online 100) 5 Scenario.legacy
           (Quiz.mk 5 "https://en.wikipedia.org/wiki/Old" "Old" ""
                    (Py.Dict []) 10)
           []); reflexivity.
Defined.

Lemma insert_desc_oldest (q : Quiz.t) (l : list Quiz.t) :
  Forall (fun x => Quiz.created_at q < Quiz.created_at x) l ->
  insert_desc q l = l ++ [q].
Proof.
  induction 1 as [| x rest Hx _ IH]; cbn.
  - reflexivity.
  - assert (E : (Quiz.created_at x <=? Quiz.created_at q) = false)
      by (apply Z.leb_gt; exact Hx).
    rewrite E, IH. reflexivity.
Qed.

Lemma order_by_increasing (rows : list Quiz.t) :
  StronglySorted (fun a b => Quiz.created_at a < Quiz.created_at b) rows ->
  order_by_created_at_desc rows = rev rows.
Proof.
  induction 1 as [| q rest Hrest IH Hq].
  - reflexivity.
  - change (order_by_created_at_desc (q :: rest))
      with (insert_desc q (order_by_created_at_desc rest)).
    rewrite IH. apply insert_desc_oldest.
    apply Forall_forall. intros x Hx. apply in_rev in Hx.
    rewrite Forall_forall in Hq. apply Hq. exact Hx.
Qed.

(** X17. When the creation timestamps of the stored quizzes strictly
    increase in the order of insertion, [GET /quizzes] lists the quizzes in
    exactly the reverse order of insertion: the last one created comes
    first. *)
Theorem listing_reverses_insertion_order :
  forall (w : Env.t) (s : State.t),
    Env.db_fault w SELECT_all = None ->
    StronglySorted (fun a b => Quiz.created_at a < Quiz.created_at b)
                   (State.quizzes s) ->
    fst (GET_quizzes w s) = Ok (rev (map Summary.of_quiz (State.quizzes s))).
Proof.
  intros w s Hruns Hsorted. unfold GET_quizzes.
  rewrite (list_quizzes_ok w s Hruns). cbn [fst].
  rewrite (order_by_increasing _ Hsorted), map_rev. reflexivity.
Qed.

Lemma listing_reverses_insertion_order_witness :
  Env.db_fault (Sample.online 300) SELECT_all = None /\
  StronglySorted (fun a b => Quiz.created_at a < Quiz.created_at b)
                 (State.quizzes Scenario.two_quizzes) /\
  map Summary.url (rev (map Summary.of_quiz (State.quizzes Scenario.two_quizzes)))
    = [QuizCreate.url Sample.lovelace; QuizCreate.url Sample.turing] /\
  fst (GET_quizzes (Sample.online 300) Scenario.two_quizzes) =
    Ok (rev (map Summary.of_quiz (State.quizzes Scenario.two_quizzes))).
Proof.
  assert (Hsorted :
            StronglySorted (fun a b => Quiz.created_at a < Quiz.created_at b)
                           (State.quizzes Scenario.two_quizzes)).
  { cbn. repeat constructor. }
  split; [reflexivity |]. split; [exact Hsorted |]. split; [reflexivity |].
  apply (listing_reverses_insertion_order
           (Sample.online 300) Scenario.two_quizzes eq_refl Hsorted).
Defined.

(* ================================================================== *)
(** * The template and the title *)
(* ================================================================== *)

Lemma length_append (a b : string) :
  String.length (a ++ b)%string = (String.length a + String.length b)%nat.
Proof.
  induction a as [| c rest IH].
  - reflexivity.
  - change (S (String.length (rest ++ b)%string) =
            S (String.length rest + String.length b)).
    rewrite IH. reflexivity.
Qed.

Lemma append_cancel_r (suffix : string) :
  forall a b : string, (a ++ suffix)%string = (b ++ suffix)%string -> a = b.
Proof.
  induction a as [| c rest IH]; intros [| d rest'] H.
  - reflexivity.
  - exfalso. apply (f_equal String.length) in H.
    change (String d rest' ++ suffix)%string
      with (String d (rest' ++ suffix)%string) in H.
    change (EmptyString ++ suffix)%string with suffix in H.
    cbn [String.length] in H. rewrite length_append in H. lia.
  - exfalso. apply (f_equal String.length) in H.
    change (String c rest ++ suffix)%string
      with (String c (rest ++ suffix)%string) in H.
    change (EmptyString ++ suffix)%string with suffix in H.
    cbn [String.length] in H. rewrite length_append in H. lia.
  - change (String c (rest ++ suffix)%string =
            String d (rest' ++ suffix)%string) in H.
    inversion H; subst. f_equal. apply IH. assumption.
Qed.

(** X18. The question records determine the title they were generated
    for (two titles give the same records only if they are the same
    title), while the related topics are the same for every title and
    content. *)
Theorem generated_quiz_determines_the_title :
  forall (title1 content1 title2 content2 : string),
    (fst (generate_quiz_with_gemini title1 content1) =
     fst (generate_quiz_with_gemini title2 content2) <-> title1 = title2) /\
    snd (generate_quiz_with_gemini title1 content1) =
    snd (generate_quiz_with_gemini title2 content2).
Proof.
  intros title1 content1 title2 content2. split; [split |].
  - unfold generate_quiz_with_gemini. cbn [fst]. intros H.
    inversion H as [[Hq1 He1 Hq2 He2]].
    apply (append_cancel_r _ _ _ He1).
  - intros ->. reflexivity.
  - reflexivity.
Qed.

(* ================================================================== *)
(** * The database URL *)
(* ================================================================== *)

Lemma prefix_iff (p s : string) :
  String.prefix p s = true <-> exists post, s = (p ++ post)%string.
Proof.
  revert s. induction p as [| a rest IH]; intros s.
  - split; [intros _; exists s; reflexivity |].
    intros _. destruct s; reflexivity.
  - destruct s as [| b tail].
    + split; [discriminate | intros [post H]; discriminate].
    + cbn [String.prefix]. destruct (ascii_dec a b) as [-> | Hne].
      * rewrite IH. split; intros [post H]; exists post.
        -- change (String b tail = String b (rest ++ post)%string).
           f_equal. exact H.
        -- change (String b tail = String b (rest ++ post)%string) in H.
           inversion H. reflexivity.
      * split; [discriminate |]. intros [post H].
        change (String b tail = String a (rest ++ post)%string) in H.
        inversion H. congruence.
Qed.

Lemma contains_iff (sub s : string) :
  Config.contains sub s = true <->
  exists pre post, s = (pre ++ sub ++ post)%string.
Proof.
  induction s as [| c tail IH].
  - cbn [Config.contains]. rewrite prefix_iff. split.
    + intros [post H]. exists EmptyString, post. exact H.
    + intros (pre & post & H). destruct pre as [| d pre'].
      * exists post. exact H.
      * discriminate.
  - cbn [Config.contains]. rewrite orb_true_iff, prefix_iff, IH. split.
    + intros [[post H] | (pre & post & H)].
      * exists EmptyString, post. exact H.
      * exists (String c pre), post.
        change (String c tail = String c (pre ++ sub ++ post)%string).
        f_equal. exact H.
    + intros (pre & post & H). destruct pre as [| d pre'].
      * left. exists post. exact H.
      * right. exists pre', post.
        change (String c tail = String d (pre' ++ sub ++ post)%string) in H.
        inversion H. reflexivity.
Qed.

Lemma getenv_unset (environ : list (string * string)) (key default : string) :
  ~ In key (map fst environ) -> Config.getenv environ key default = default.
Proof.
  induction environ as [| [k v] rest IH]; cbn; intros H.
  - reflexivity.
  - destruct (String.eqb k key) eqn:E.
    + apply String.eqb_eq in E. exfalso. apply H. left. exact E.
    + apply IH. intros Hin. apply H. right. exact Hin.
Qed.

(** X19. The engine is created with [check_same_thread] set to [False]
    exactly when the database URL contains "sqlite" somewhere (not only as
    its scheme), and with no connection argument otherwise; without a
    [DATABASE_URL] variable the URL is the file [./quiz.db] and the argument
    is set. *)
Theorem connect_args_follow_the_url :
  forall (db_url : string) (environ : list (string * string)),
    (Config.connect_args db_url = [("check_same_thread", false)] <->
     exists pre post, db_url = (pre ++ "sqlite" ++ post)%string) /\
    (Config.connect_args db_url = [] <->
     ~ exists pre post, db_url = (pre ++ "sqlite" ++ post)%string) /\
    (~ In "DATABASE_URL"%string (map fst environ) ->
     Config.DB_URL environ = "sqlite:///./quiz.db"%string /\
     Config.connect_args (Config.DB_URL environ) =
       [("check_same_thread", false)]).
Proof.
  intros db_url environ. unfold Config.connect_args.
  rewrite <- (contains_iff "sqlite" db_url).
  split; [| split].
  - destruct (Config.contains "sqlite" db_url); split; congruence.
  - destruct (Config.contains "sqlite" db_url); split; congruence.
  - intros Hunset. unfold Config.DB_URL.
    rewrite (getenv_unset _ _ _ Hunset). split; reflexivity.
Qed.

Lemma connect_args_follow_the_url_witness :
  Config.connect_args "postgresql://db/sqlite_archive" =
    [("check_same_thread", false)] /\
  (exists pre post,
      "postgresql://db/sqlite_archive"%string =
      (pre ++ "sqlite" ++ post)%string) /\
  Config.connect_args "postgresql://db/quiz" = [] /\
  ~ In "DATABASE_URL"%string (map fst [("HOME"%string, "/root"%string)]) /\
  Config.DB_URL [("HOME"%string, "/root"%string)] =
    "sqlite:///./quiz.db"%string /\
  Config.connect_args (Config.DB_URL [("HOME"%string, "/root"%string)]) =
    [("check_same_thread", false)].
Proof.
  split; [reflexivity |].
  split.
  { apply (proj1 (proj1 (connect_args_follow_the_url
                           "postgresql://db/sqlite_archive" []))).
    reflexivity. }
  split; [reflexivity |].
  split; [cbn; intros [H | []]; discriminate |].
  apply (proj2 (proj2 (connect_args_follow_the_url
                         "" [("HOME"%string, "/root"%string)]))).
  cbn. intros [H | []]. discriminate.
Defined.

(* ================================================================== *)
(** * Every stored quiz can be read back *)
(* ================================================================== *)

(** The row the body of [generate_quiz] may add, whatever its outcome. *)
Lemma generate_quiz_body_row (w : Env.t) (data : QuizCreate.t) (db : Session)
      (s s1 : State.t) (r : result Payload.t) :
  generate_quiz_body w data db s = (r, s1) ->
  State.quizzes s1 = State.quizzes s \/
  exists row,
    State.quizzes s1 = State.quizzes s ++ [row] /\
    Quiz.id row = next_rowid (State.quizzes s) /\
    Quiz.created_at row = Env.now w /\
    Quiz.quiz_data row =
      Py.Dict
        [("questions",
           fst (generate_quiz_with_gemini (Quiz.title row) EmptyString));
         ("related_topics",
           snd (generate_quiz_with_gemini (Quiz.title row) EmptyString))].
Proof.
  intros Hbody.
  destruct (scrape_wikipedia w (QuizCreate.url data) s)
    as [[[t c] | x] s0] eqn:Hscrape.
  - pose proof Hscrape as Hstate.
    apply scrape_wikipedia_returns in Hstate as [-> _].
    destruct (Env.db_fault w INSERT_quiz) as [x |] eqn:Hins.
    { rewrite (body_insert_refused w data db s t c x Hscrape Hins) in Hbody.
      inversion Hbody. auto. }
    destruct (url_taken (QuizCreate.url data) (State.quizzes s)) eqn:Hnew.
    { destruct (generate_quiz_body_taken w data db s Hnew) as (x & Hx & _).
      rewrite Hx in Hbody. inversion Hbody. auto. }
    destruct (Env.db_fault w SELECT_refresh) as [x |] eqn:Hsel.
    + rewrite (generate_quiz_body_refresh_refused w data db s t c x
                 Hscrape Hins Hsel Hnew) in Hbody.
      inversion Hbody. right. eexists. repeat split.
    + rewrite (generate_quiz_body_ok w data db s t c Hscrape Hins Hsel Hnew)
        in Hbody.
      inversion Hbody. right. eexists. repeat split.
  - pose proof Hscrape as Hstate.
    apply scrape_wikipedia_raises in Hstate as [-> _].
    revert Hbody. unfold generate_quiz_body. run_monad.
    rewrite Hscrape. intros H. inversion H. auto.
Qed.

(** The row a request may add. *)
Lemma serve_row (r : request) (s : State.t) :
  State.quizzes (serve r s) = State.quizzes s \/
  exists row,
    State.quizzes (serve r s) = State.quizzes s ++ [row] /\
    Quiz.id row = next_rowid (State.quizzes s) /\
    Quiz.created_at row = request_time r /\
    Quiz.quiz_data row =
      Py.Dict
        [("questions",
           fst (generate_quiz_with_gemini (Quiz.title row) EmptyString));
         ("related_topics",
           snd (generate_quiz_with_gemini (Quiz.title row) EmptyString))].
Proof.
  destruct r as [w data | w | w quiz_id]; cbn [serve].
  - unfold POST_generate. rewrite bind_response_model_state.
    rewrite generate_quiz_quizzes.
    destruct (generate_quiz_body w data (State.next_session s)
                                 (snd (SessionLocal s))) as [r s1] eqn:Hbody.
    apply generate_quiz_body_row in Hbody. exact Hbody.
  - left. apply list_quizzes_quizzes.
  - left. unfold GET_quiz. rewrite bind_response_model_state.
    apply get_quiz_quizzes.
Qed.

(** In a reachable state the ids are pairwise different and every row
    holds the records of the template for its title. *)
Lemma reachable_rows (s : State.t) :
  reachable s ->
  NoDup (map Quiz.id (State.quizzes s)) /\
  Forall (fun row =>
            Quiz.quiz_data row =
              Py.Dict
                [("questions",
                   fst (generate_quiz_with_gemini (Quiz.title row)
                                                  EmptyString));
                 ("related_topics",
                   snd (generate_quiz_with_gemini (Quiz.title row)
                                                  EmptyString))])
         (State.quizzes s).
Proof.
  intros [rs ->]. induction rs as [| r rest IH] using rev_ind.
  - split; constructor.
  - rewrite serve_all_snoc. destruct IH as [Hids Hrows].
    destruct (serve_row r (serve_all rest State.initial))
      as [H | (row & H & Hid & _ & Hdata)]; rewrite H.
    + auto.
    + split.
      * rewrite map_app. apply NoDup_snoc; [exact Hids |].
        intros Hin. apply in_map_iff in Hin as (q & Hq & Hin).
        apply id_lt_next_rowid in Hin. lia.
      * apply Forall_app. split; [exact Hrows |]. constructor; [| constructor].
        exact Hdata.
Qed.

Lemma find_unique (rows : list Quiz.t) (q : Quiz.t) :
  NoDup (map Quiz.id rows) -> In q rows ->
  find (fun x => Quiz.id x =? Quiz.id q) rows = Some q.
Proof.
  induction rows as [| x rest IH]; cbn; intros Hnodup Hin.
  - contradiction.
  - inversion Hnodup as [| ? ? Hx Hrest]; subst.
    destruct Hin as [-> | Hin].
    + rewrite Z.eqb_refl. reflexivity.
    + destruct (Quiz.id x =? Quiz.id q) eqn:E.
      * apply Z.eqb_eq in E. exfalso. apply Hx. rewrite E.
        apply in_map. exact Hin.
      * apply IH; assumption.
Qed.

(** Reading back a row of a reachable state. *)
Lemma stored_quiz_read_back (w : Env.t) (s : State.t) (q : Quiz.t) :
  reachable s ->
  In q (State.quizzes s) ->
  Env.db_fault w (SELECT_by_id (Quiz.id q)) = None ->
  exists q1 q2 t1 t2 t3,
    fst (GET_quiz w (Quiz.id q) s) =
      Ok (QuizResponse.mk (Quiz.id q) (Quiz.url q) (Quiz.title q)
                          [q1; q2] [t1; t2; t3]).
Proof.
  intros Hreach Hin Hruns.
  destruct (reachable_rows s Hreach) as [Hids Hrows].
  rewrite Forall_forall in Hrows. specialize (Hrows q Hin).
  pose proof (find_unique _ q Hids Hin) as Hfind.
  destruct (generated_validates (Quiz.id q) (Quiz.url q) (Quiz.title q)
              (Quiz.title q) EmptyString)
    as (q1 & q2 & t1 & t2 & t3 & Hvalid).
  exists q1, q2, t1, t2, t3.
  unfold GET_quiz, bind.
  rewrite (get_quiz_found w (Quiz.id q) s q _ Hruns Hfind Hrows).
  cbn [Py.dict_get String.eqb Ascii.eqb Bool.eqb].
  unfold response_model.
  change (validate_QuizResponse _) with
    (validate_QuizResponse
       (Payload.mk (Quiz.id q) (Quiz.url q) (Quiz.title q)
                   (fst (generate_quiz_with_gemini (Quiz.title q) EmptyString))
                   (snd (generate_quiz_with_gemini (Quiz.title q) EmptyString)))).
  rewrite Hvalid. reflexivity.
Qed.

(** X20. In every state the server reaches from an empty table, every
    stored quiz can be read back: [GET /quizzes/{id}] with its id returns,
    when the engine runs the lookup, a response with that quiz's id, url
    and title, two questions and three related topics. *)
Theorem every_stored_quiz_is_readable :
  forall (w : Env.t) (s : State.t) (q : Quiz.t),
    reachable s ->
    In q (State.quizzes s) ->
    Env.db_fault w (SELECT_by_id (Quiz.id q)) = None ->
    exists resp,
      fst (GET_quiz w (Quiz.id q) s) = Ok resp /\
      QuizResponse.id resp = Quiz.id q /\
      QuizResponse.url resp = Quiz.url q /\
      QuizResponse.title resp = Quiz.title q /\
      length (QuizResponse.quiz_data resp) = 2%nat /\
      length (QuizResponse.related_topics resp) = 3%nat.
Proof.
  intros w s q Hreach Hin Hruns.
  destruct (stored_quiz_read_back w s q Hreach Hin Hruns)
    as (q1 & q2 & t1 & t2 & t3 & Hget).
  eexists. split; [exact Hget |]. repeat split.
Qed.

Lemma every_stored_quiz_is_readable_witness :
  reachable Scenario.two_quizzes /\
  exists q,
    In q (State.quizzes Scenario.two_quizzes) /\
    Quiz.id q = 2 /\
    Env.db_fault (Sample.online 300) (SELECT_by_id (Quiz.id q)) = None /\
    exists resp,
      fst (GET_quiz (Sample.online 300) (Quiz.id q) Scenario.two_quizzes)
        = Ok resp /\
      QuizResponse.id resp = Quiz.id q /\
      QuizResponse.url resp = Quiz.url q /\
      QuizResponse.title resp = Quiz.title q /\
      length (QuizResponse.quiz_data resp) = 2%nat /\
      length (QuizResponse.related_topics resp) = 3%nat.
Proof.
  split; [exact two_quizzes_reachable |].
  eexists. split; [right; left; reflexivity |].
  split; [reflexivity |]. split; [reflexivity |].
  apply (every_stored_quiz_is_readable
           (Sample.online 300) Scenario.two_quizzes _ two_quizzes_reachable).
  - right. left. reflexivity.
  - reflexivity.
Defined.

(** X21. Every entry of a listing can be opened: in a reachable state,
    when the engine runs the queries, [GET /quizzes/{id}] with the id of an
    entry that [GET /quizzes] returned gives a response with the id, the
    url and the title of that entry. *)
Theorem every_listed_quiz_can_be_opened :
  forall (w w' : Env.t) (s : State.t) (listing : list Summary.t)
         (entry : Summary.t),
    reachable s ->
    fst (GET_quizzes w s) = Ok listing ->
    In entry listing ->
    Env.db_fault w' (SELECT_by_id (Summary.id entry)) = None ->
    exists resp,
      fst (GET_quiz w' (Summary.id entry) s) = Ok resp /\
      QuizResponse.id resp = Summary.id entry /\
      QuizResponse.url resp = Summary.url entry /\
      QuizResponse.title resp = Summary.title entry.
Proof.
  intros w w' s listing entry Hreach Hlist Hentry Hruns.
  assert (Hrow : exists q, In q (State.quizzes s) /\
                           entry = Summary.of_quiz q).
  { revert Hlist. unfold GET_quizzes, list_quizzes, query_all_newest_first.
    run_monad. destruct (Env.db_fault w SELECT_all); cbn; [discriminate |].
    intros H. inversion H; subst listing.
    apply in_map_iff in Hentry as (q & Hq & Hin).
    exists q. split; [| auto].
    apply Permutation_in with (1 := order_by_perm (State.quizzes s)).
    exact Hin. }
  destruct Hrow as (q & Hin & ->).
  destruct (stored_quiz_read_back w' s q Hreach Hin Hruns)
    as (q1 & q2 & t1 & t2 & t3 & Hget).
  eexists. split; [exact Hget |]. repeat split.
Qed.

Lemma every_listed_quiz_can_be_opened_witness :
  reachable Scenario.two_quizzes /\
  fst (GET_quizzes (Sample.online 300) Scenario.two_quizzes) =
    Ok (rev (map Summary.of_quiz (State.quizzes Scenario.two_quizzes))) /\
  In (Summary.mk 1 "Alan Turing" "https://en.wikipedia.org/wiki/Alan_Turing" 100)
     (rev (map Summary.of_quiz (State.quizzes Scenario.two_quizzes))) /\
  Env.db_fault (Sample.online 400) (SELECT_by_id 1) = None /\
  exists resp,
    fst (GET_quiz (Sample.online 400) 1 Scenario.two_quizzes) = Ok resp /\
    QuizResponse.id resp = 1 /\
    QuizResponse.url resp =
      "https://en.wikipedia.org/wiki/Alan_Turing"%string /\
    QuizResponse.title resp = "Alan Turing"%string.
Proof.
  split; [exact two_quizzes_reachable |]. split; [reflexivity |].
  split; [right; left; reflexivity |]. split; [reflexivity |].
  apply (every_listed_quiz_can_be_opened
           (Sample.online 300) (Sample.online 400) Scenario.two_quizzes
           (rev (map Summary.of_quiz (State.quizzes Scenario.two_quizzes)))
           (Summary.mk 1 "Alan Turing"
                       "https://en.wikipedia.org/wiki/Alan_Turing" 100)
           two_quizzes_reachable).
  - reflexivity.
  - right. left. reflexivity.
  - reflexivity.
Defined.

(* ================================================================== *)
(** * Listing under an increasing clock *)
(* ================================================================== *)

Lemma StronglySorted_snoc_inv {A} (R : A -> A -> Prop) (l : list A) (x : A) :
  StronglySorted R (l ++ [x]) ->
  StronglySorted R l /\ Forall (fun y => R y x) l.
Proof.
  induction l as [| y rest IH]; cbn; intros H.
  - split; constructor.
  - inversion H as [| ? ? Hrest Hy]; subst.
    destruct (IH Hrest) as [Hsorted Hall].
    apply Forall_app in Hy as [Hy Hx]. inversion Hx; subst.
    split; constructor; assumption.
Qed.

(** Under a strictly increasing clock the creation timestamps strictly
    increase along the table, and each one is the time of a request. *)
Lemma rows_follow_the_clock (rs : list request) :
  StronglySorted Z.lt (map request_time rs) ->
  StronglySorted (fun a b => Quiz.created_at a < Quiz.created_at b)
                 (State.quizzes (serve_all rs State.initial)) /\
  Forall (fun q => In (Quiz.created_at q) (map request_time rs))
         (State.quizzes (serve_all rs State.initial)).
Proof.
  induction rs as [| r rest IH] using rev_ind; intros Hclock.
  - split; constructor.
  - rewrite map_app in Hclock. cbn [map] in Hclock.
    apply StronglySorted_snoc_inv in Hclock as [Hrest Hbefore].
    destruct (IH Hrest) as [Hsorted Htimes].
    rewrite serve_all_snoc, map_app.
    assert (Htimes' :
              Forall (fun q => In (Quiz.created_at q)
                                  (map request_time rest ++ map request_time [r]))
                     (State.quizzes (serve_all rest State.initial))).
    { apply Forall_impl with (2 := Htimes). intros q Hq.
      apply in_or_app. left. exact Hq. }
    destruct (serve_row r (serve_all rest State.initial))
      as [H | (row & H & _ & Htime & _)]; rewrite H.
    + split; assumption.
    + split.
      * apply StronglySorted_snoc; [exact Hsorted |].
        rewrite Forall_forall in Htimes, Hbefore |- *.
        intros q Hq. rewrite Htime. apply Hbefore. apply Htimes. exact Hq.
      * apply Forall_app. split; [exact Htimes' |].
        constructor; [| constructor].
        apply in_or_app. right. left. symmetry. exact Htime.
Qed.

(** X22. When the database clock strictly increases from one request to
    the next, starting from an empty table, [GET /quizzes] lists the
    quizzes in the reverse order of their creation. *)
Theorem increasing_clock_lists_newest_first :
  forall (rs : list request) (w : Env.t),
    StronglySorted Z.lt (map request_time rs) ->
    Env.db_fault w SELECT_all = None ->
    fst (GET_quizzes w (serve_all rs State.initial)) =
      Ok (rev (map Summary.of_quiz
                   (State.quizzes (serve_all rs State.initial)))).
Proof.
  intros rs w Hclock Hruns.
  destruct (rows_follow_the_clock rs Hclock) as [Hsorted _].
  unfold GET_quizzes. rewrite (list_quizzes_ok w _ Hruns). cbn [fst].
  rewrite (order_by_increasing _ Hsorted), map_rev. reflexivity.
Qed.

Lemma increasing_clock_lists_newest_first_witness :
  StronglySorted Z.lt
    (map request_time [Generate (Sample.online 100) Sample.turing;
                       ListAll (Sample.online 150);
                       Generate (Sample.online 200) Sample.lovelace]) /\
  Env.db_fault (Sample.online 300) SELECT_all = None /\
  fst (GET_quizzes (Sample.online 300)
         (serve_all [Generate (Sample.online 100) Sample.turing;
                     ListAll (Sample.online 150);
                     Generate (Sample.online 200) Sample.lovelace]
                    State.initial)) =
    Ok [Summary.mk 2 "Alan Turing"
                   "https://en.wikipedia.org/wiki/Ada_Lovelace" 200;
        Summary.mk 1 "Alan Turing"
                   "https://en.wikipedia.org/wiki/Alan_Turing" 100].
Proof.
  assert (Hclock :
            StronglySorted Z.lt
              (map request_time [Generate (Sample.online 100) Sample.turing;
                                 ListAll (Sample.online 150);
                                 Generate (Sample.online 200) Sample.lovelace])).
  { cbn. repeat constructor. }
  split; [exact Hclock |]. split; [reflexivity |].
  exact (increasing_clock_lists_newest_first
           [Generate (Sample.online 100) Sample.turing;
            ListAll (Sample.online 150);
            Generate (Sample.online 200) Sample.lovelace]
           (Sample.online 300) Hclock eq_refl).
Defined.
